(** * CSVLogger: a shallow embedding of src/CSVLogger.cpp

    The logger is a Qt object with a handful of configuration members, a
    [QFile] and a [QTextStream] writing to it.  Its methods are embedded as
    computations in a small state monad over the object, the file system it
    writes to and the stream of diagnostics and signals it emits.  The Qt
    classes the methods call ([QString::number], [QVariant], [QDateTime],
    [QFile], [QTextStream], [QDir], [QStandardPaths]) are modelled just far
    enough to run those methods. *)

From Stdlib Require Import ZArith Ascii String Floats.SpecFloat.
From stdpp Require Import gmap strings list.

(** ** Text *)

Definition digit (d : Z) : ascii := ascii_of_nat (48 + Z.to_nat d).

(** The [w] least significant decimal digits of [n], put in front of [acc]. *)
Fixpoint fixed_digits (w : nat) (n : Z) (acc : string) : string :=
  match w with
  | O => acc
  | S w' => fixed_digits w' (n / 10) (String (digit (n mod 10)) acc)
  end.

Fixpoint decimal_go (fuel : nat) (n : Z) (acc : string) : string :=
  match fuel with
  | O => acc
  | S fuel' =>
      let acc' := String (digit (n mod 10)) acc in
      if (n / 10 =? 0)%Z then acc' else decimal_go fuel' (n / 10) acc'
  end.

(** Decimal numeral of a natural number [n]; a numeral never has more digits
    than [n] has bits, which bounds the recursion. *)
Definition decimal (n : Z) : string :=
  decimal_go (S (Z.to_nat (Z.log2 n))) n "".

Definition is_digit (c : ascii) : bool :=
  (48 <=? nat_of_ascii c) && (nat_of_ascii c <=? 57).

Fixpoint all_digits (s : string) : bool :=
  match s with
  | EmptyString => true
  | String c r => is_digit c && all_digits r
  end.

Fixpoint drop_chars (n : nat) (s : string) : string :=
  match n, s with
  | S n', String _ r => drop_chars n' r
  | _, _ => s
  end.

(** ** Qt values *)

(** [QString::number(int)]. *)
Definition QString_number_int (n : Z) : string :=
  if (n <? 0)%Z then "-" +:+ decimal (- n) else decimal n.

(** A C++ [double] is an IEEE 754 binary64 datum: a signed zero, an infinity,
    a NaN, or [(-1)^s * m * 2^e]. *)
Abbreviation double := spec_float.

(** Services of the platform the logger runs on, which the repository's code
    consumes and does not define. *)
Record Platform := {
  (** [Q_OS_WIN] is defined *)
  os_win : bool;
  (** [QStandardPaths::writableLocation(AppDataLocation)] *)
  appDataLocation : string;
  (** [QStandardPaths::writableLocation(DocumentsLocation)] *)
  documentsLocation : string;
  (** [QDir(path).isAbsolute()] *)
  isAbsolute : string → bool;
  (** how [QString::number] breaks a tie between two decimal neighbours:
      to the even one ([true]) or away from zero ([false]); Qt releases
      differ *)
  ties_to_even : bool;
  (** [QVariant(double).toString()], which [buildLogLine] never reaches *)
  double_toString : double → string
}.

(** A POSIX host: absolute paths (and Qt resource paths) start with a slash
    (or a colon). *)
Definition posix : Platform := {|
  os_win := false;
  appDataLocation := "/home/user/.local/share/app";
  documentsLocation := "/home/user/Documents";
  isAbsolute := λ p, String.prefix "/" p || String.prefix ":" p;
  ties_to_even := true;
  double_toString := λ _, ""
|}.

(** [a / b] rounded to the nearest integer. *)
Definition round_div (even : bool) (a b : Z) : Z :=
  let q := (a / b)%Z in
  match (2 * (a mod b) ?= b)%Z with
  | Lt => q
  | Gt => (q + 1)%Z
  | Eq => if even && Z.even q then q else (q + 1)%Z
  end.

(** [m * 2^e * 10^p] as an integer, rounded to nearest. *)
Definition scaled (even : bool) (m : positive) (e : Z) (p : Z) : Z :=
  if (0 <=? e)%Z then (Z.pos m * 2 ^ e * 10 ^ p)%Z
  else round_div even (Z.pos m * 10 ^ p)%Z (2 ^ (- e))%Z.

(** The numeral of [n / 10^p] with [p] digits behind the point. *)
Definition fixed (neg : bool) (n : Z) (p : nat) : string :=
  (if neg then "-" else "") +:+ decimal (n / 10 ^ Z.of_nat p) +:+
  match p with
  | O => ""
  | S _ => "." +:+ fixed_digits p (n mod 10 ^ Z.of_nat p) ""
  end.

(** [QString::number(d, 'f', precision)]: Qt replaces a negative precision by
    its default of six digits. *)
Definition QString_number_f (even : bool) (d : double) (precision : Z) : string :=
  let p := if (precision <? 0)%Z then 6%nat else Z.to_nat precision in
  match d with
  | S754_zero s => fixed s 0 p
  | S754_finite s m e => fixed s (scaled even m e (Z.of_nat p)) p
  | S754_infinity s => if s then "-inf" else "inf"
  | S754_nan => "nan"
  end.

(** The [QVariant]s a QML caller can put in a row. *)
Inductive QVariant :=
  | QVInvalid
  | QVBool (b : bool)
  | QVInt (i : Z)
  | QVDouble (d : double)
  | QVString (s : string).

Inductive QVariantType := Invalid | Bool | Int | Double | String_.

Definition type (v : QVariant) : QVariantType :=
  match v with
  | QVInvalid => Invalid
  | QVBool _ => Bool
  | QVInt _ => Int
  | QVDouble _ => Double
  | QVString _ => String_
  end.

Abbreviation QVariantList := (list QVariant).

(** ** QDateTime *)

Record QDateTime := {
  year : Z; month : Z; day : Z;
  hour : Z; minute : Z; second : Z; msec : Z
}.

(** A field printed with at least [w] digits, zero padded. *)
Definition pad (w : nat) (n : Z) : string :=
  if (n <? 10 ^ Z.of_nat w)%Z then fixed_digits w n "" else decimal n.

(** [QDateTime::toString(format)] for the format expressions the logger uses:
    [yyyy], [MM], [dd], [HH], [mm], [ss] and [zzz]; any other character stands
    for itself. *)
Fixpoint toString_go (fuel : nat) (t : QDateTime) (format : string) : string :=
  match fuel with
  | O => ""
  | S fuel' =>
      if String.prefix "yyyy" format then
        pad 4 (year t) +:+ toString_go fuel' t (drop_chars 4 format)
      else if String.prefix "MM" format then
        pad 2 (month t) +:+ toString_go fuel' t (drop_chars 2 format)
      else if String.prefix "dd" format then
        pad 2 (day t) +:+ toString_go fuel' t (drop_chars 2 format)
      else if String.prefix "HH" format then
        pad 2 (hour t) +:+ toString_go fuel' t (drop_chars 2 format)
      else if String.prefix "mm" format then
        pad 2 (minute t) +:+ toString_go fuel' t (drop_chars 2 format)
      else if String.prefix "ss" format then
        pad 2 (second t) +:+ toString_go fuel' t (drop_chars 2 format)
      else if String.prefix "zzz" format then
        pad 3 (msec t) +:+ toString_go fuel' t (drop_chars 3 format)
      else
        match format with
        | EmptyString => ""
        | String c r => String c (toString_go fuel' t r)
        end
  end.

Definition QDateTime_toString (t : QDateTime) (format : string) : string :=
  toString_go (String.length format) t format.

(** A date of the Gregorian calendar's four-digit years and a time of day. *)
Definition valid_datetime (t : QDateTime) : Prop :=
  (0 ≤ year t ≤ 9999 ∧ 1 ≤ month t ≤ 12 ∧ 1 ≤ day t ≤ 31 ∧
   0 ≤ hour t ≤ 23 ∧ 0 ≤ minute t ≤ 59 ∧ 0 ≤ second t ≤ 59 ∧
   0 ≤ msec t ≤ 999)%Z.

(** ** The object, its file and its stream *)

(** [QFile]: the name it is bound to, whether it is open, and the position of
    the next write. *)
Record QFile := {
  fileName : string;
  isOpen : bool;
  pos : Z;
  errorString : string
}.

(** [QTextStream]: whether a device (always the logger's own [file]) is set,
    and the text written to the stream and not yet flushed. *)
Record QTextStream := {
  device : bool;
  buffer : string
}.

Record CSVLogger := {
  (** [QQuickItem::isEnabled()] of the base class *)
  enabled : bool;
  filename : string;
  header : list string;
  logTime : bool;
  logMillis : bool;
  toConsole : bool;
  precision : Z;
  timestampHeader : string;
  fileNeedsReopen : bool;
  writing : bool;
  file : QFile;
  writer : QTextStream
}.

(** The file system: the text of every file that exists, and the paths that
    cannot be opened for writing, each with the error the open reports. *)
Record World := {
  files : gmap string string;
  denied : gmap string string
}.

Inductive Signal := filenameChanged | logTimeChanged | headerChanged.

(** What the object sends out: the three message classes of [QDebug]
    ([qDebug], [qWarning], [qCritical]) and the signals it emits. *)
Inductive Event :=
  | Debug (text : string)
  | Warning (text : string)
  | Critical (text : string)
  | Emit (sig : Signal).

Record Sys := {
  self : CSVLogger;
  world : World;
  out : list Event
}.

(** *** Field updates *)

Definition with_filename (v : string) (o : CSVLogger) : CSVLogger :=
  {| enabled := enabled o; filename := v; header := header o;
     logTime := logTime o; logMillis := logMillis o; toConsole := toConsole o;
     precision := precision o; timestampHeader := timestampHeader o;
     fileNeedsReopen := fileNeedsReopen o; writing := writing o;
     file := file o; writer := writer o |}.

Definition with_header (v : list string) (o : CSVLogger) : CSVLogger :=
  {| enabled := enabled o; filename := filename o; header := v;
     logTime := logTime o; logMillis := logMillis o; toConsole := toConsole o;
     precision := precision o; timestampHeader := timestampHeader o;
     fileNeedsReopen := fileNeedsReopen o; writing := writing o;
     file := file o; writer := writer o |}.

Definition with_logTime (v : bool) (o : CSVLogger) : CSVLogger :=
  {| enabled := enabled o; filename := filename o; header := header o;
     logTime := v; logMillis := logMillis o; toConsole := toConsole o;
     precision := precision o; timestampHeader := timestampHeader o;
     fileNeedsReopen := fileNeedsReopen o; writing := writing o;
     file := file o; writer := writer o |}.

Definition with_fileNeedsReopen (v : bool) (o : CSVLogger) : CSVLogger :=
  {| enabled := enabled o; filename := filename o; header := header o;
     logTime := logTime o; logMillis := logMillis o; toConsole := toConsole o;
     precision := precision o; timestampHeader := timestampHeader o;
     fileNeedsReopen := v; writing := writing o;
     file := file o; writer := writer o |}.

Definition with_writing (v : bool) (o : CSVLogger) : CSVLogger :=
  {| enabled := enabled o; filename := filename o; header := header o;
     logTime := logTime o; logMillis := logMillis o; toConsole := toConsole o;
     precision := precision o; timestampHeader := timestampHeader o;
     fileNeedsReopen := fileNeedsReopen o; writing := v;
     file := file o; writer := writer o |}.

Definition with_file (v : QFile) (o : CSVLogger) : CSVLogger :=
  {| enabled := enabled o; filename := filename o; header := header o;
     logTime := logTime o; logMillis := logMillis o; toConsole := toConsole o;
     precision := precision o; timestampHeader := timestampHeader o;
     fileNeedsReopen := fileNeedsReopen o; writing := writing o;
     file := v; writer := writer o |}.

Definition with_writer (v : QTextStream) (o : CSVLogger) : CSVLogger :=
  {| enabled := enabled o; filename := filename o; header := header o;
     logTime := logTime o; logMillis := logMillis o; toConsole := toConsole o;
     precision := precision o; timestampHeader := timestampHeader o;
     fileNeedsReopen := fileNeedsReopen o; writing := writing o;
     file := file o; writer := v |}.

(** *** The monad of a method body *)

Definition M (A : Type) : Type := Sys → A * Sys.

Definition ret {A} (a : A) : M A := λ s, (a, s).

Definition bind {A B} (m : M A) (k : A → M B) : M B :=
  λ s, let '(a, s') := m s in k a s'.

Notation "x <~ m ;; k" := (bind m (λ x, k))
  (at level 20, m at level 99, k at level 200, only parsing).
Notation "m ;; k" := (bind m (λ _, k))
  (at level 100, k at level 200, right associativity, only parsing).

(** Read a member. *)
Definition member {A} (f : CSVLogger → A) : M A := λ s, (f (self s), s).

(** Assign to the object. *)
Definition assign (f : CSVLogger → CSVLogger) : M unit :=
  λ s, (tt, {| self := f (self s); world := world s; out := out s |}).

Definition send (e : Event) : M unit :=
  λ s, (tt, {| self := self s; world := world s; out := out s ++ [e] |}).

Definition qDebug (text : string) : M unit := send (Debug text).
Definition qWarning (text : string) : M unit := send (Warning text).
Definition qCritical (text : string) : M unit := send (Critical text).
Definition emit (sig : Signal) : M unit := send (Emit sig).

Definition when (b : bool) (m : M unit) : M unit := if b then m else ret tt.

(** Run a method on a system and keep the system. *)
Definition exec {A} (m : M A) (s : Sys) : Sys := (m s).2.

Definition nl : string := String (ascii_of_nat 10) "".

(** *** QFile and QTextStream *)

(** [QFile::close()]. *)
Definition QFile_close (f : QFile) : QFile :=
  if isOpen f then
    {| fileName := fileName f; isOpen := false; pos := 0;
       errorString := errorString f |}
  else f.

Definition file_close : M unit := assign (λ o, with_file (QFile_close (file o)) o).

(** [QFile::setFileName(name)], which closes an open file first. *)
Definition file_setFileName (name : string) : M unit :=
  assign (λ o, with_file
    {| fileName := name; isOpen := false; pos := 0;
       errorString := errorString (file o) |} o).

(** Whether [open(WriteOnly | Append)] of [path] succeeds. *)
Definition openable (w : World) (path : string) : bool :=
  negb (String.eqb path "") && bool_decide (denied w !! path = None).

(** The text of the file at [path]; a file that does not exist has none. *)
Definition content (w : World) (path : string) : string :=
  default "" (files w !! path).

(** [file.open(QIODevice::WriteOnly | QIODevice::Append)]: creates the file
    when it does not exist and puts the position at its end. *)
Definition file_open_append : M bool := λ s,
  let f := file (self s) in
  if isOpen f then (false, s)
  else if String.eqb (fileName f) "" then (false, s)
  else
    match denied (world s) !! fileName f with
    | Some err =>
        (false,
         {| self := with_file {| fileName := fileName f; isOpen := false;
                                 pos := 0; errorString := err |} (self s);
            world := world s; out := out s |})
    | None =>
        let text := content (world s) (fileName f) in
        (true,
         {| self := with_file {| fileName := fileName f; isOpen := true;
                                 pos := Z.of_nat (String.length text);
                                 errorString := errorString f |} (self s);
            world := {| files := <[fileName f := text]> (files (world s));
                        denied := denied (world s) |};
            out := out s |})
    end.

(** [QIODevice::write] on [file] in append mode: the data goes to the end of
    the file; nothing is written to a device that is not open. *)
Definition file_write (data : string) : M unit := λ s,
  let f := file (self s) in
  if isOpen f then
    (tt,
     {| self := with_file {| fileName := fileName f; isOpen := true;
                             pos := pos f + Z.of_nat (String.length data);
                             errorString := errorString f |} (self s);
        world := {| files := <[fileName f := content (world s) (fileName f) +:+ data]>
                               (files (world s));
                    denied := denied (world s) |};
        out := out s |})
  else (tt, s).

(** [writer << text]: buffered until the next flush; a stream without a
    device takes nothing. *)
Definition writer_put (text : string) : M unit :=
  assign (λ o,
    if device (writer o) then
      with_writer {| device := true; buffer := buffer (writer o) +:+ text |} o
    else o).

(** [writer.flush()]. *)
Definition writer_flush : M unit :=
  w <~ member writer ;;
  if device w && negb (String.eqb (buffer w) "") then
    file_write (buffer w) ;;
    assign (with_writer {| device := true; buffer := "" |})
  else ret tt.

(** [writer.setDevice(&file)]. *)
Definition writer_setDevice : M unit :=
  writer_flush ;;
  assign (λ o, with_writer {| device := true; buffer := buffer (writer o) |} o).

(** [QDir::root().mkpath(QFileInfo(path).absolutePath())]: directories are
    not part of [World]; a directory that cannot be made shows as a [denied]
    path at the open, and the call's result is ignored by the caller. *)
Definition QDir_mkpath (path : string) : M unit := ret tt.

(** ** The methods of CSVLogger *)

Definition CSVLogger_new : CSVLogger := {|
  enabled := true;
  filename := "";
  header := [];
  logTime := true;
  logMillis := true;
  toConsole := false;
  precision := 2;
  timestampHeader := "timestamp";
  fileNeedsReopen := false;
  writing := false;
  file := {| fileName := ""; isOpen := false; pos := 0; errorString := "Unknown error" |};
  writer := {| device := false; buffer := "" |}
|}.

Definition boot (w : World) : Sys := {| self := CSVLogger_new; world := w; out := [] |}.

Definition close : M unit :=
  writer_flush ;;
  file_close ;;
  assign (with_fileNeedsReopen true) ;;
  assign (with_writing false).

Section Methods.

Variable os : Platform.

Definition toString (v : QVariant) : string :=
  match v with
  | QVInvalid => ""
  | QVBool b => if b then "true" else "false"
  | QVInt i => QString_number_int i
  | QVDouble d => double_toString os d
  | QVString s => s
  end.

(** [datum.type() == QVariant::Double ? QString::number(datum.toReal(), 'f',
    precision) : datum.toString()]; [toReal] of a [Double] is its payload. *)
Definition render (precision : Z) (datum : QVariant) : string :=
  match datum with
  | QVDouble d => QString_number_f (ties_to_even os) d precision
  | _ => toString datum
  end.

(** [for(int i = 1; i < data.size(); i++)] of [buildLogLine], run for at most
    [fuel] rounds; [data !! i] is [None] exactly when [i < data.size()]
    fails. *)
Fixpoint for_data (fuel : nat) (precision : Z) (data : QVariantList)
    (i : nat) (line : string) : string :=
  match fuel with
  | O => line
  | S fuel' =>
      match data !! i with
      | Some datum =>
          for_data fuel' precision data (S i) (line +:+ ", " +:+ render precision datum)
      | None => line
      end
  end.

(** The clock reading [QDateTime::currentDateTime()] returns during the call
    is the argument [now]. *)
Definition buildLogLine (now : QDateTime) (data : QVariantList) : M string :=
  let line := "" in
  logTime_ <~ member logTime ;;
  logMillis_ <~ member logMillis ;;
  let line :=
    if logTime_ then
      if logMillis_ then line +:+ QDateTime_toString now "yyyy-MM-dd HH:mm:ss.zzz"
      else line +:+ QDateTime_toString now "yyyy-MM-dd HH:mm:ss"
    else line in
  header_ <~ member header ;;
  when (negb (length data =? length header_))
    (qWarning "CSVLogger::buildLogLine(): Data and header don't have the same length, log file will not be correct.") ;;
  precision_ <~ member precision ;;
  let line :=
    match data !! 0%nat with
    | Some datum => (if logTime_ then line +:+ ", " else line) +:+ render precision_ datum
    | None => line
    end in
  ret (for_data (length data) precision_ data 1 line).

(** [for(int i = 1; i < header.size(); i++)] of [buildHeaderString]. *)
Fixpoint for_header (fuel : nat) (header_ : list string) (i : nat)
    (headerString : string) : string :=
  match fuel with
  | O => headerString
  | S fuel' =>
      match header_ !! i with
      | Some column => for_header fuel' header_ (S i) (headerString +:+ ", " +:+ column)
      | None => headerString
      end
  end.

Definition buildHeaderString : M string :=
  let headerString := "" in
  logTime_ <~ member logTime ;;
  timestampHeader_ <~ member timestampHeader ;;
  let headerString := if logTime_ then headerString +:+ timestampHeader_ else headerString in
  header_ <~ member header ;;
  let headerString :=
    match header_ !! 0%nat with
    | Some column => (if logTime_ then headerString +:+ ", " else headerString) +:+ column
    | None => headerString
    end in
  ret (for_header (length header_) header_ 1 headerString).

Definition setFilename (filename_ : string) : M unit :=
  current <~ member filename ;;
  if bool_decide (current ≠ filename_) then
    writer_flush ;;
    file_close ;;
    assign (with_filename filename_) ;;
    assign (with_fileNeedsReopen true) ;;
    assign (with_writing false) ;;
    emit filenameChanged
  else ret tt.

Definition setLogTime (logTime_ : bool) : M unit :=
  current <~ member logTime ;;
  if bool_decide (current ≠ logTime_) then
    writing_ <~ member writing ;;
    if writing_ then
      qCritical "CSVLogger::setLogTime(): logTime cannot be changed while writing."
    else
      assign (with_logTime logTime_) ;;
      emit logTimeChanged
  else ret tt.

Definition setHeader (header_ : list string) : M unit :=
  current <~ member header ;;
  if bool_decide (current ≠ header_) then
    writing_ <~ member writing ;;
    if writing_ then
      qCritical "CSVLogger::setHeader(): header cannot be changed while writing."
    else
      assign (with_header header_) ;;
      emit headerChanged
  else ret tt.

Definition writableLocation : string :=
  if os_win os then appDataLocation os else documentsLocation os.

(** The body of [if(fileNeedsReopen)] in [log]; the result tells whether
    [log] goes on after it ([false] is the [return] of the failed open). *)
Definition reopen : M bool :=
  filename_ <~ member filename ;;
  (if isAbsolute os filename_ then
     qDebug ("CSVLogger::log(): Opening " +:+ filename_ +:+ " to log.")
   else
     assign (with_filename (writableLocation +:+ "/" +:+ filename_)) ;;
     filename_ <~ member filename ;;
     qDebug ("CSVLogger::log(): Absolute path not given, opening " +:+ filename_ +:+ " to log.") ;;
     emit filenameChanged) ;;
  filename_ <~ member filename ;;
  QDir_mkpath filename_ ;;
  file_setFileName filename_ ;;
  opened <~ file_open_append ;;
  if negb opened then
    file_ <~ member file ;;
    qCritical ("CSVLogger::log(): Could not open file: " +:+ errorString file_) ;;
    ret false
  else
    writer_setDevice ;;
    assign (with_fileNeedsReopen false) ;;
    assign (with_writing true) ;;
    file_ <~ member file ;;
    when (pos file_ =? 0)%Z
      (headerString <~ buildHeaderString ;;
       writer_put headerString ;;
       writer_put nl ;;
       writer_flush) ;;
    ret true.

Definition log (now : QDateTime) (data : QVariantList) : M unit :=
  enabled_ <~ member enabled ;;
  if negb enabled_ then ret tt
  else
    toConsole_ <~ member toConsole ;;
    if toConsole_ then
      line <~ buildLogLine now data ;;
      qDebug line
    else
      fileNeedsReopen_ <~ member fileNeedsReopen ;;
      proceed <~ (if fileNeedsReopen_ then reopen else ret true) ;;
      if negb proceed then ret tt
      else
        file_ <~ member file ;;
        if isOpen file_ then
          line <~ buildLogLine now data ;;
          writer_put line ;;
          writer_put nl ;;
          writer_flush
        else
          qCritical "CSVLogger::log(): File is not open, valid filename must be provided beforehand.".

End Methods.

(** ** Sequences of calls *)

Inductive Call :=
  | CallSetFilename (filename_ : string)
  | CallSetLogTime (logTime_ : bool)
  | CallSetHeader (header_ : list string)
  | CallLog (now : QDateTime) (data : QVariantList)
  | CallClose.

Definition call (os : Platform) (c : Call) : M unit :=
  match c with
  | CallSetFilename filename_ => setFilename filename_
  | CallSetLogTime logTime_ => setLogTime logTime_
  | CallSetHeader header_ => setHeader header_
  | CallLog now data => log os now data
  | CallClose => close
  end.

Fixpoint calls (os : Platform) (cs : list Call) : M unit :=
  match cs with
  | [] => ret tt
  | c :: cs' => call os c ;; calls os cs'
  end.

(** [log] called once per row, each call with its own clock reading. *)
Definition logs (os : Platform) (rows : list (QDateTime * QVariantList)) : M unit :=
  calls os (map (λ r, CallLog r.1 r.2) rows).

(** ** The text of a line, as the specification words it *)

(** The timestamp column of a data line. *)
Definition timestamp (o : CSVLogger) (now : QDateTime) : string :=
  if logTime o then
    if logMillis o then QDateTime_toString now "yyyy-MM-dd HH:mm:ss.zzz"
    else QDateTime_toString now "yyyy-MM-dd HH:mm:ss"
  else "".

(** The separator between the timestamp column and the first of [columns]. *)
Definition lead {A} (o : CSVLogger) (columns : list A) : string :=
  match columns with
  | [] => ""
  | _ :: _ => if logTime o then ", " else ""
  end.

(** Timestamp first when [logTime], then every value of the row in order,
    comma-space separated. *)
Definition data_line (os : Platform) (o : CSVLogger) (now : QDateTime)
    (data : QVariantList) : string :=
  timestamp o now +:+ lead o data +:+
  String.concat ", " (map (render os (precision o)) data).

(** [timestampHeader] first when [logTime], then every column name. *)
Definition header_line (o : CSVLogger) : string :=
  (if logTime o then timestampHeader o else "") +:+ lead o (header o) +:+
  String.concat ", " (header o).

(** The diagnostic of a row whose length is not the header's. *)
Definition length_warning (o : CSVLogger) (data : QVariantList) : list Event :=
  if (length data =? length (header o))%nat then []
  else [Warning "CSVLogger::buildLogLine(): Data and header don't have the same length, log file will not be correct."].

(** A fixed-point numeral with [p] fractional digits: an optional minus
    sign, at least one digit, and, when [p] is positive, a point and exactly
    [p] digits. *)
Definition fixed_point (p : nat) (s : string) : Prop :=
  ∃ sign int frac,
    s = sign +:+ int +:+ (match p with O => "" | S _ => "." +:+ frac end) ∧
    (sign = "" ∨ sign = "-") ∧ int ≠ "" ∧
    all_digits int = true ∧ all_digits frac = true ∧ String.length frac = p.

(** [shape pattern s]: [s] has the length of [pattern], a digit wherever
    [pattern] has a [d], and the character of [pattern] everywhere else. *)
Fixpoint shape (pattern s : string) : bool :=
  match pattern, s with
  | EmptyString, EmptyString => true
  | String p pattern', String c s' =>
      (if Ascii.eqb p "d" then is_digit c else Ascii.eqb p c) && shape pattern' s'
  | _, _ => false
  end.

(** ** The file session *)

(** The path [log] opens for the stored [filename]. *)
Definition target (os : Platform) (o : CSVLogger) : string :=
  if isAbsolute os (filename o) then filename o
  else writableLocation os +:+ "/" +:+ filename o.

(** What [log] reports and emits while it resolves the path. *)
Definition resolve_events (os : Platform) (o : CSVLogger) : list Event :=
  if isAbsolute os (filename o) then
    [Debug ("CSVLogger::log(): Opening " +:+ filename o +:+ " to log.")]
  else
    [Debug ("CSVLogger::log(): Absolute path not given, opening " +:+ target os o +:+ " to log.");
     Emit filenameChanged].

(** The three session states of the specification, read off the members. *)
Inductive Session := Closed | NeedsReopen | Open.

#[global] Instance Session_eq_dec : EqDecision Session.
Proof. solve_decision. Defined.

Definition session (o : CSVLogger) : Session :=
  if fileNeedsReopen o then NeedsReopen
  else if isOpen (file o) then Open else Closed.

(** What holds of the members between any two calls. *)
Definition consistent (o : CSVLogger) : Prop :=
  buffer (writer o) = "" ∧
  (fileNeedsReopen o = true → writing o = false) ∧
  writing o = isOpen (file o) ∧
  (isOpen (file o) = true →
   device (writer o) = true ∧ fileNeedsReopen o = false ∧
   fileName (file o) = filename o).

(** The messages of one class among the events. *)
Definition criticals (events : list Event) : list string :=
  omap (λ e, match e with Critical text => Some text | _ => None end) events.

Definition debugs (events : list Event) : list string :=
  omap (λ e, match e with Debug text => Some text | _ => None end) events.

(** A double that is a number: neither an infinity nor a NaN. *)
Definition finite (d : double) : bool :=
  match d with
  | S754_zero _ | S754_finite _ _ _ => true
  | S754_infinity _ | S754_nan => false
  end.

(** The double nearest to 3.14159. *)
Definition d_3_14159 : double := S754_finite false 7074231776675438 (-51).

(** The error text a failed open of [path] leaves in the file object [f]. *)
Definition open_error (w : World) (f : QFile) (path : string) : string :=
  if String.eqb path "" then errorString f
  else default (errorString f) (denied w !! path).

(** The members a caller configures and no method of the session changes. *)
Definition same_config (o o' : CSVLogger) : Prop :=
  enabled o' = enabled o ∧ header o' = header o ∧ logTime o' = logTime o ∧
  logMillis o' = logMillis o ∧ toConsole o' = toConsole o ∧
  precision o' = precision o ∧ timestampHeader o' = timestampHeader o.

(** The file object after a successful open of [path], a file of [size]
    characters. *)
Definition opened (f : QFile) (path : string) (size : nat) : QFile :=
  {| fileName := path; isOpen := true; pos := Z.of_nat size;
     errorString := errorString f |}.

(** The file object after [text] was written through it. *)
Definition written (text : string) (f : QFile) : QFile :=
  {| fileName := fileName f; isOpen := isOpen f;
     pos := pos f + Z.of_nat (String.length text);
     errorString := errorString f |}.

(** The header line [log] puts into a file that is empty when opened. *)
Definition heading (o : CSVLogger) (before : string) : string :=
  if String.eqb before "" then header_line o +:+ nl else "".

(** The session is open and a row can go straight to the file. *)
Definition open_for_rows (o : CSVLogger) : Prop :=
  enabled o = true ∧ toConsole o = false ∧ fileNeedsReopen o = false ∧
  isOpen (file o) = true ∧ device (writer o) = true ∧ buffer (writer o) = "".

(** The text [rows] add to a file, one line each. *)
Definition data_lines (os : Platform) (o : CSVLogger)
    (rows : list (QDateTime * QVariantList)) : string :=
  String.concat "" (map (λ r, data_line os o r.1 r.2 +:+ nl) rows).

(** ** Sample inputs *)

Definition sample_now : QDateTime :=
  {| year := 2016; month := 6; day := 15; hour := 9; minute := 5;
     second := 0; msec := 42 |}.

Definition sample_row : QVariantList :=
  [QVDouble d_3_14159; QVInt 3; QVString "x"].

Definition empty_world : World := {| files := ∅; denied := ∅ |}.

(** A file system in which the documents directory cannot be written. *)
Definition locked_world : World :=
  {| files := ∅;
     denied := {[ "/home/user/Documents/log.csv" := "Permission denied" ]} |}.

(** A logger that was given a relative file name and nothing else. *)
Definition named (w : World) : Sys := exec (setFilename "log.csv") (boot w).

(** A logger that has written one row to its file. *)
Definition running : Sys :=
  exec (log posix sample_now sample_row) (named empty_world).

(** A logger switched to the console. *)
Definition on_console : Sys :=
  {| self := {| enabled := true; filename := "log.csv"; header := ["a"; "b"];
                logTime := true; logMillis := false; toConsole := true;
                precision := 2; timestampHeader := "timestamp";
                fileNeedsReopen := true; writing := false;
                file := file CSVLogger_new; writer := writer CSVLogger_new |};
     world := empty_world; out := [] |}.

(** A logger whose item was disabled. *)
Definition switched_off : Sys :=
  {| self := {| enabled := false; filename := "log.csv"; header := ["a"; "b"];
                logTime := true; logMillis := true; toConsole := false;
                precision := 2; timestampHeader := "timestamp";
                fileNeedsReopen := true; writing := false;
                file := file CSVLogger_new; writer := writer CSVLogger_new |};
     world := empty_world; out := [] |}.

(** A logger given an absolute name in a directory it may not write. *)
Definition locked_out : Sys :=
  exec (setFilename "/home/user/Documents/log.csv") (boot locked_world).


(** * Properties *)

(** ** Text *)

Lemma append_nil_l (s : string) : "" +:+ s = s.
Proof. reflexivity. Qed.

Lemma append_cons (c : ascii) (s t : string) :
  String c s +:+ t = String c (s +:+ t).
Proof. reflexivity. Qed.

Lemma append_nil_r (s : string) : s +:+ "" = s.
Proof. induction s as [|c s IH]; [done |]. by rewrite append_cons, IH. Qed.

Lemma append_assoc (a b c : string) : (a +:+ b) +:+ c = a +:+ b +:+ c.
Proof. induction a as [|x a IH]; [done |]. by rewrite !append_cons, IH. Qed.

Lemma length_append (a b : string) :
  String.length (a +:+ b) = (String.length a + String.length b)%nat.
Proof.
  induction a as [|x a IH]; [done |].
  rewrite append_cons; simpl; by rewrite IH.
Qed.

Lemma all_digits_append (a b : string) :
  all_digits (a +:+ b) = all_digits a && all_digits b.
Proof.
  induction a as [|x a IH]; [done |].
  rewrite append_cons; simpl. by rewrite IH, andb_assoc.
Qed.

Lemma is_digit_digit (n : Z) : is_digit (digit (n mod 10)) = true.
Proof.
  pose proof (Z.mod_pos_bound n 10 eq_refl) as Hb.
  unfold is_digit, digit.
  rewrite nat_ascii_embedding by lia.
  apply andb_true_iff; split; apply Nat.leb_le; lia.
Qed.

Lemma length_fixed_digits (w : nat) (n : Z) (acc : string) :
  String.length (fixed_digits w n acc) = (w + String.length acc)%nat.
Proof.
  revert n acc; induction w as [|w IH]; intros n acc; cbn [fixed_digits]; [done |].
  rewrite IH; cbn [String.length]; lia.
Qed.

Lemma all_digits_fixed_digits (w : nat) (n : Z) (acc : string) :
  all_digits (fixed_digits w n acc) = all_digits acc.
Proof.
  revert n acc; induction w as [|w IH]; intros n acc; cbn [fixed_digits]; [done |].
  rewrite IH; cbn [all_digits]. by rewrite is_digit_digit.
Qed.

Lemma decimal_go_digits (fuel : nat) (n : Z) (acc : string) :
  all_digits (decimal_go fuel n acc) = all_digits acc.
Proof.
  revert n acc; induction fuel as [|fuel IH]; intros n acc; cbn [decimal_go]; [done |].
  destruct (n / 10 =? 0)%Z; [| rewrite IH]; cbn [all_digits]; by rewrite is_digit_digit.
Qed.

Lemma decimal_go_length (fuel : nat) (n : Z) (acc : string) :
  (String.length acc ≤ String.length (decimal_go fuel n acc))%nat.
Proof.
  revert n acc; induction fuel as [|fuel IH]; intros n acc; cbn [decimal_go]; [done |].
  destruct (n / 10 =? 0)%Z; [cbn [String.length]; lia |].
  etrans; [| apply IH]. cbn [String.length]; lia.
Qed.

Lemma decimal_digits (n : Z) : all_digits (decimal n) = true.
Proof. unfold decimal. by rewrite decimal_go_digits. Qed.

Lemma decimal_nonempty (n : Z) : decimal n ≠ "".
Proof.
  unfold decimal; cbn [decimal_go]. intros H.
  destruct (n / 10 =? 0)%Z; [done |].
  pose proof (decimal_go_length (Z.to_nat (Z.log2 n)) (n / 10)
                (String (digit (n mod 10)) "")) as Hl.
  rewrite H in Hl. cbn [String.length] in Hl. lia.
Qed.

Lemma append_ne_nil_r (a b : string) : b ≠ "" → a +:+ b ≠ "".
Proof.
  intros Hb H. apply (f_equal String.length) in H.
  rewrite length_append in H. destruct b; [done |]. cbn [String.length] in H. lia.
Qed.

Lemma eqb_append_nl (a : string) : String.eqb (a +:+ nl) "" = false.
Proof. apply String.eqb_neq, append_ne_nil_r. done. Qed.

Lemma concat_cons2 (sep x y : string) (r : list string) :
  String.concat sep (x :: y :: r) = x +:+ sep +:+ String.concat sep (y :: r).
Proof. reflexivity. Qed.

(** A separated list is its first item followed by every other item with
    the separator in front. *)
Lemma concat_foldr {A} (f : A → string) (sep : string) (x : A) (r : list A) :
  String.concat sep (map f (x :: r))
  = f x +:+ foldr (λ d acc, sep +:+ f d +:+ acc) "" r.
Proof.
  revert x; induction r as [|y r IH]; intros x.
  - cbn. by rewrite append_nil_r.
  - cbn [map foldr]. rewrite concat_cons2. cbn [map] in IH. by rewrite IH.
Qed.

(** ** The line builder *)

Section LineBuilder.

Variable os : Platform.

(** The loop of [buildLogLine] appends every value from index [i] on, each
    with a comma and a space in front, as soon as it may run as many rounds
    as values are left. *)
Lemma for_data_spec (precision_ : Z) (data : QVariantList) (fuel i : nat) (line : string) :
  (length data ≤ i + fuel)%nat →
  for_data os fuel precision_ data i line
  = line +:+ foldr (λ d acc, ", " +:+ render os precision_ d +:+ acc) "" (drop i data).
Proof.
  revert i line; induction fuel as [|fuel IH]; intros i line Hfuel.
  - rewrite drop_ge by lia. cbn. by rewrite append_nil_r.
  - cbn [for_data]. destruct (data !! i) as [datum|] eqn:Hi.
    + rewrite IH by lia.
      rewrite (drop_S _ _ _ Hi). cbn [foldr].
      by rewrite !append_assoc.
    + apply lookup_ge_None in Hi. rewrite drop_ge by lia.
      cbn. by rewrite append_nil_r.
Qed.

Lemma for_header_spec (header_ : list string) (fuel i : nat) (headerString : string) :
  (length header_ ≤ i + fuel)%nat →
  for_header fuel header_ i headerString
  = headerString +:+ foldr (λ c acc, ", " +:+ c +:+ acc) "" (drop i header_).
Proof.
  revert i headerString; induction fuel as [|fuel IH]; intros i headerString Hfuel.
  - rewrite drop_ge by lia. cbn. by rewrite append_nil_r.
  - cbn [for_header]. destruct (header_ !! i) as [column|] eqn:Hi.
    + rewrite IH by lia.
      rewrite (drop_S _ _ _ Hi). cbn [foldr].
      by rewrite !append_assoc.
    + apply lookup_ge_None in Hi. rewrite drop_ge by lia.
      cbn. by rewrite append_nil_r.
Qed.

(** The first value goes behind the timestamp, the loop adds the others:
    together, the separated list of all values. *)
Lemma first_then_rest (lt : bool) (stamp : string) (precision_ : Z)
    (data : QVariantList) :
  for_data os (length data) precision_ data 1
    match data !! 0%nat with
    | Some datum => (if lt then stamp +:+ ", " else stamp) +:+ render os precision_ datum
    | None => stamp
    end
  = stamp +:+ match data with [] => "" | _ :: _ => if lt then ", " else "" end +:+
    String.concat ", " (map (render os precision_) data).
Proof.
  rewrite for_data_spec by lia.
  destruct data as [|datum data].
  - cbn. by rewrite ?append_nil_l, ?append_nil_r.
  - rewrite concat_foldr. cbn [lookup list_lookup drop].
    destruct lt; by rewrite ?append_nil_l, ?append_assoc.
Qed.

(** [buildLogLine] returns [data_line] and reports a row of the wrong
    length; it changes nothing else. *)
Lemma buildLogLine_run (now : QDateTime) (data : QVariantList) (s : Sys) :
  buildLogLine os now data s
  = (data_line os (self s) now data,
     {| self := self s; world := world s;
        out := out s ++ length_warning (self s) data |}).
Proof.
  destruct s as [o w ev].
  unfold buildLogLine, data_line, timestamp, lead, length_warning, bind, member,
    when, qWarning, send, ret.
  cbn [self world out fst snd].
  destruct (length data =? length (header o))%nat; cbn [negb fst snd self world out];
    rewrite ?app_nil_r; f_equal;
    (destruct (logTime o);
     [destruct (logMillis o); apply (first_then_rest true)
     |apply (first_then_rest false "")]).
Qed.

(** [buildHeaderString] returns [header_line] and changes nothing. *)
Lemma buildHeaderString_run (s : Sys) :
  buildHeaderString s = (header_line (self s), s).
Proof.
  destruct s as [o w ev].
  unfold buildHeaderString, header_line, lead, bind, member, ret.
  cbn [self world out fst snd].
  f_equal. rewrite for_header_spec by lia.
  destruct (header o) as [|column columns].
  - cbn. destruct (logTime o); by rewrite ?append_nil_l, ?append_nil_r.
  - rewrite <- (map_id (column :: columns)) at 3.
    rewrite (concat_foldr id). cbn [lookup list_lookup drop id].
    destruct (logTime o); by rewrite ?append_nil_l, ?append_assoc.
Qed.

End LineBuilder.

(** ** Formatting *)

Lemma toString_seconds (t : QDateTime) :
  QDateTime_toString t "yyyy-MM-dd HH:mm:ss"
  = pad 4 (year t) +:+ "-" +:+ pad 2 (month t) +:+ "-" +:+ pad 2 (day t) +:+ " " +:+
    pad 2 (hour t) +:+ ":" +:+ pad 2 (minute t) +:+ ":" +:+ pad 2 (second t).
Proof. rewrite <- (append_nil_r (pad 2 (second t))). reflexivity. Qed.

Lemma toString_millis (t : QDateTime) :
  QDateTime_toString t "yyyy-MM-dd HH:mm:ss.zzz"
  = QDateTime_toString t "yyyy-MM-dd HH:mm:ss" +:+ "." +:+ pad 3 (msec t).
Proof.
  rewrite toString_seconds, !append_assoc.
  rewrite <- (append_nil_r (pad 3 (msec t))). reflexivity.
Qed.

Lemma pad_small (w : nat) (n : Z) :
  (n < 10 ^ Z.of_nat w)%Z → pad w n = fixed_digits w n "".
Proof. intros H. unfold pad. by rewrite (proj2 (Z.ltb_lt _ _) H). Qed.

Lemma shape_seconds (t : QDateTime) :
  valid_datetime t →
  shape "dddd-dd-dd dd:dd:dd" (QDateTime_toString t "yyyy-MM-dd HH:mm:ss") = true.
Proof.
  intros (Hy & Hm & Hd & Hh & Hmi & Hs & Hz).
  rewrite toString_seconds.
  rewrite !pad_small by (cbn; lia).
  cbn [fixed_digits]. rewrite !append_cons, !append_nil_l.
  cbn [shape Ascii.eqb Bool.eqb andb].
  rewrite !is_digit_digit. reflexivity.
Qed.

Lemma shape_millis (t : QDateTime) :
  valid_datetime t →
  shape "dddd-dd-dd dd:dd:dd.ddd" (QDateTime_toString t "yyyy-MM-dd HH:mm:ss.zzz") = true.
Proof.
  intros (Hy & Hm & Hd & Hh & Hmi & Hs & Hz).
  rewrite toString_millis, toString_seconds, !append_assoc.
  rewrite !pad_small by (cbn; lia).
  cbn [fixed_digits]. rewrite !append_cons, !append_nil_l.
  cbn [shape Ascii.eqb Bool.eqb andb].
  rewrite !is_digit_digit. reflexivity.
Qed.

(** [fixed] always writes a fixed-point numeral with [p] fractional digits. *)
Lemma fixed_fixed_point (neg : bool) (n : Z) (p : nat) :
  fixed_point p (fixed neg n p).
Proof.
  exists (if neg then "-" else ""), (decimal (n / 10 ^ Z.of_nat p)),
    (match p with O => "" | S _ => fixed_digits p (n mod 10 ^ Z.of_nat p) "" end).
  repeat split.
  - unfold fixed. by destruct p.
  - destruct neg; auto.
  - apply decimal_nonempty.
  - apply decimal_digits.
  - destruct p; [done |]. by rewrite all_digits_fixed_digits.
  - destruct p; [done |]. rewrite length_fixed_digits. cbn [String.length]. lia.
Qed.

(** A finite double printed with a precision that is not negative has exactly
    that many fractional digits. *)
Lemma number_f_fixed_point (even : bool) (d : double) (precision_ : Z) :
  finite d = true → (0 ≤ precision_)%Z →
  fixed_point (Z.to_nat precision_) (QString_number_f even d precision_).
Proof.
  intros Hd Hp. unfold QString_number_f.
  rewrite (proj2 (Z.ltb_ge _ _) Hp).
  destruct d; try discriminate; apply fixed_fixed_point.
Qed.

(** No numeral with fractional digits is shorter than its point and those
    digits. *)
Lemma fixed_point_length (p : nat) (s : string) :
  fixed_point (S p) s → (S p + 2 ≤ String.length s)%nat.
Proof.
  intros (sign & int & frac & -> & _ & Hint & _ & _ & Hlen).
  rewrite !length_append, Hlen.
  destruct int; [done |]. cbn [String.length]. lia.
Qed.

(** *** Sample values *)

Example decimal_ex : decimal 1204 = "1204" ∧ decimal 0 = "0" ∧ pad 2 7 = "07".
Proof. repeat split; reflexivity. Qed.

(** 3.14159 and -3.14159, the tie 0.125 under both rules, the tie 2.5, and
    the integer 12. *)
Example number_f_ex :
  QString_number_f true d_3_14159 2 = "3.14" ∧
  QString_number_f false (S754_finite true 7074231776675438 (-51)) 4 = "-3.1416" ∧
  QString_number_f true (S754_finite false 1 (-3)) 2 = "0.12" ∧
  QString_number_f false (S754_finite false 1 (-3)) 2 = "0.13" ∧
  QString_number_f true (S754_finite false 5 (-1)) 0 = "2" ∧
  QString_number_f true (S754_finite false 3 2) 1 = "12.0".
Proof. repeat split; vm_compute; reflexivity. Qed.

Example toString_ex :
  QDateTime_toString sample_now "yyyy-MM-dd HH:mm:ss.zzz" = "2016-06-15 09:05:00.042".
Proof. vm_compute. reflexivity. Qed.

(** ** The file session *)

Opaque buildLogLine buildHeaderString.

Ltac open_sys s :=
  let o := fresh "o" in let w := fresh "w" in let ev := fresh "ev" in
  let f := fresh "f" in let wr := fresh "wr" in
  destruct s as [o w ev]; destruct o as [en fn hd lt lm tc pr th nr wg f wr];
  destruct f as [fname fopen fpos ferr]; destruct wr as [dev buf];
  destruct w as [fs dn];
  cbn [self world out enabled filename header logTime logMillis toConsole
       precision timestampHeader fileNeedsReopen writing file writer
       fileName isOpen pos errorString device buffer files denied] in *.

Ltac step :=
  cbv beta iota delta
    [fst snd self world out enabled filename header logTime logMillis toConsole
     precision timestampHeader fileNeedsReopen writing file writer
     fileName isOpen pos errorString device buffer files denied
     with_filename with_header with_logTime with_fileNeedsReopen with_writing
     with_file with_writer QFile_close opened written] in *;
  cbn [negb andb orb] in *.

Ltac run :=
  unfold exec, log, reopen, close, setFilename, setLogTime, setHeader,
    writer_setDevice, writer_flush, writer_put, file_write, file_open_append,
    file_setFileName, file_close, QDir_mkpath, qDebug, qWarning, qCritical, emit,
    send, when, assign, member, bind, ret;
  step.

Lemma exec_bind {A B} (m : M A) (k : A → M B) (s : Sys) :
  exec (bind m k) s = exec (k (m s).1) (m s).2.
Proof. unfold exec, bind. by destruct (m s). Qed.

(** Flushing a stream that holds no text does nothing. *)
Lemma flush_idle (s : Sys) :
  buffer (writer (self s)) = "" → exec writer_flush s = s.
Proof. intros. open_sys s. subst. run. by destruct dev. Qed.

Lemma data_line_config (os : Platform) (o o' : CSVLogger) now data :
  same_config o o' → data_line os o' now data = data_line os o now data.
Proof.
  intros (_ & _ & Ht & Hm & _ & Hp & _).
  unfold data_line, timestamp, lead. by rewrite Ht, Hm, Hp.
Qed.

Lemma header_line_config (o o' : CSVLogger) :
  same_config o o' → header_line o' = header_line o.
Proof.
  intros (_ & Hh & Ht & _ & _ & _ & Hs).
  unfold header_line, lead. by rewrite Ht, Hh, Hs.
Qed.

Lemma length_warning_config (o o' : CSVLogger) data :
  same_config o o' → length_warning o' data = length_warning o data.
Proof. intros (_ & Hh & _). unfold length_warning. by rewrite Hh. Qed.

Section Session.

Variable os : Platform.

(** A disabled item logs nothing. *)
Lemma log_disabled (now : QDateTime) (data : QVariantList) (s : Sys) :
  enabled (self s) = false → exec (log os now data) s = s.
Proof. intros. open_sys s. subst. by run. Qed.

(** In console mode the line goes to [qDebug] and nothing else happens. *)
Lemma log_console (now : QDateTime) (data : QVariantList) (s : Sys) :
  enabled (self s) = true → toConsole (self s) = true →
  exec (log os now data) s
  = {| self := self s; world := world s;
       out := out s ++ length_warning (self s) data ++
              [Debug (data_line os (self s) now data)] |}.
Proof.
  intros. open_sys s. subst. run.
  rewrite buildLogLine_run. step. by rewrite <- app_assoc.
Qed.

(** With no file open and none to open, the row is dropped. *)
Lemma log_closed (now : QDateTime) (data : QVariantList) (s : Sys) :
  enabled (self s) = true → toConsole (self s) = false →
  fileNeedsReopen (self s) = false → isOpen (file (self s)) = false →
  exec (log os now data) s
  = {| self := self s; world := world s;
       out := out s ++
         [Critical "CSVLogger::log(): File is not open, valid filename must be provided beforehand."] |}.
Proof. intros. open_sys s. subst. by run. Qed.

(** With the file open, the line and a newline go to its end. *)
Lemma log_open (now : QDateTime) (data : QVariantList) (s : Sys) :
  enabled (self s) = true → toConsole (self s) = false →
  fileNeedsReopen (self s) = false → isOpen (file (self s)) = true →
  device (writer (self s)) = true → buffer (writer (self s)) = "" →
  exec (log os now data) s
  = {| self := with_file
         (written (data_line os (self s) now data +:+ nl) (file (self s))) (self s);
       world := {| files := <[fileName (file (self s)) :=
                      content (world s) (fileName (file (self s))) +:+
                      data_line os (self s) now data +:+ nl]> (files (world s));
                   denied := denied (world s) |};
       out := out s ++ length_warning (self s) data |}.
Proof.
  intros. open_sys s. subst. run.
  rewrite buildLogLine_run. step.
  rewrite append_nil_l, eqb_append_nl. step.
  reflexivity.
Qed.

(** A failed open: the path is resolved and stored, the failure reported,
    no file touched. *)
Lemma log_reopen_fail (now : QDateTime) (data : QVariantList) (s : Sys) :
  enabled (self s) = true → toConsole (self s) = false →
  fileNeedsReopen (self s) = true →
  openable (world s) (target os (self s)) = false →
  exec (log os now data) s
  = {| self := with_file
         {| fileName := target os (self s); isOpen := false; pos := 0;
            errorString := open_error (world s) (file (self s)) (target os (self s)) |}
         (with_filename (target os (self s)) (self s));
       world := world s;
       out := out s ++ resolve_events os (self s) ++
         [Critical ("CSVLogger::log(): Could not open file: " +:+
                    open_error (world s) (file (self s)) (target os (self s)))] |}.
Proof.
  intros ? ? ? Hopen. open_sys s. subst.
  unfold openable, resolve_events, open_error, target in *. step. run.
  destruct (isAbsolute os fn) eqn:Habs; step;
    match type of Hopen with context [String.eqb ?t ""] =>
      destruct (String.eqb t "") eqn:Hempty; step;
      [rewrite <- !app_assoc; reflexivity |];
      destruct (dn !! t) as [err|] eqn:Hdenied; step;
      [rewrite <- !app_assoc; reflexivity
      |by rewrite bool_decide_eq_true_2 in Hopen]
    end.
Qed.

Lemma pos_zero (text : string) :
  (Z.of_nat (String.length text) =? 0)%Z = String.eqb text "".
Proof. by destruct text. Qed.

(** A successful open: the path is resolved and stored, an empty file gets
    the header line, and the row follows. *)
Lemma log_reopen_ok (now : QDateTime) (data : QVariantList) (s : Sys) :
  enabled (self s) = true → toConsole (self s) = false →
  fileNeedsReopen (self s) = true → buffer (writer (self s)) = "" →
  openable (world s) (target os (self s)) = true →
  exec (log os now data) s
  = let path := target os (self s) in
    let before := content (world s) path in
    let head := heading (self s) before in
    let line := data_line os (self s) now data +:+ nl in
    {| self :=
         with_writer {| device := true; buffer := "" |}
           (with_file
              (written line
                 (if String.eqb before "" then
                    written head (opened (file (self s)) path (String.length before))
                  else opened (file (self s)) path (String.length before)))
              (with_writing true
                 (with_fileNeedsReopen false (with_filename path (self s)))));
       world := {| files := <[path := before +:+ head +:+ line]> (files (world s));
                   denied := denied (world s) |};
       out := out s ++ resolve_events os (self s) ++ length_warning (self s) data |}.
Proof.
  intros ? ? ? ? Hopen. open_sys s. subst.
  unfold openable, resolve_events, heading, target in *. step. run.
  destruct (isAbsolute os fn) eqn:Habs; step;
    match type of Hopen with context [String.eqb ?t ""] =>
      destruct (String.eqb t "") eqn:Hempty; [done |];
      destruct (dn !! t) as [err|] eqn:Hdenied; [done |]
    end; step;
    rewrite String.eqb_refl; step; rewrite andb_false_r; step;
    rewrite pos_zero;
    match goal with |- context [content ?w ?t] =>
      destruct (String.eqb (content w t) "") eqn:Hbefore end; step;
    repeat first
      [ rewrite buildHeaderString_run | rewrite buildLogLine_run
      | rewrite append_nil_l | rewrite eqb_append_nl | progress step ];
    unfold content; step;
    rewrite ?lookup_insert_eq, ?insert_insert_eq; cbn [from_option id];
    rewrite <- ?app_assoc, ?append_assoc; reflexivity.
Qed.

End Session.

(** ** The setters and [close] *)

(** [close] flushes, closes the file and asks for a reopen. *)
Lemma close_run (s : Sys) :
  exec close s
  = let s1 := exec writer_flush s in
    {| self := with_writing false
         (with_fileNeedsReopen true
            (with_file (QFile_close (file (self s1))) (self s1)));
       world := world s1; out := out s1 |}.
Proof.
  unfold close, exec, bind.
  destruct (writer_flush s) as [[] s1]. open_sys s1. run. reflexivity.
Qed.

(** [setFilename] with the name already stored does nothing at all. *)
Lemma setFilename_same (s : Sys) :
  exec (setFilename (filename (self s))) s = s.
Proof. open_sys s. run. by rewrite bool_decide_eq_false_2 by auto. Qed.

(** [setFilename] with another name flushes, closes the file, stores the
    name, asks for a reopen and notifies. *)
Lemma setFilename_new (filename_ : string) (s : Sys) :
  filename (self s) ≠ filename_ →
  exec (setFilename filename_) s
  = let s1 := exec writer_flush s in
    {| self := with_writing false
         (with_fileNeedsReopen true
            (with_filename filename_
               (with_file (QFile_close (file (self s1))) (self s1))));
       world := world s1; out := out s1 ++ [Emit filenameChanged] |}.
Proof.
  intros Hne. unfold setFilename, exec, bind, member at 1.
  rewrite bool_decide_eq_true_2 by done.
  destruct (writer_flush s) as [[] s1]. open_sys s1. run. reflexivity.
Qed.

Lemma setLogTime_same (s : Sys) :
  exec (setLogTime (logTime (self s))) s = s.
Proof. open_sys s. run. by rewrite bool_decide_eq_false_2 by auto. Qed.

Lemma setLogTime_writing (logTime_ : bool) (s : Sys) :
  logTime (self s) ≠ logTime_ → writing (self s) = true →
  exec (setLogTime logTime_) s
  = {| self := self s; world := world s;
       out := out s ++
         [Critical "CSVLogger::setLogTime(): logTime cannot be changed while writing."] |}.
Proof.
  intros Hne Hw. open_sys s. subst. run. by rewrite bool_decide_eq_true_2 by done.
Qed.

Lemma setLogTime_idle (logTime_ : bool) (s : Sys) :
  logTime (self s) ≠ logTime_ → writing (self s) = false →
  exec (setLogTime logTime_) s
  = {| self := with_logTime logTime_ (self s); world := world s;
       out := out s ++ [Emit logTimeChanged] |}.
Proof.
  intros Hne Hw. open_sys s. subst. run. by rewrite bool_decide_eq_true_2 by done.
Qed.

Lemma setHeader_same (s : Sys) :
  exec (setHeader (header (self s))) s = s.
Proof. open_sys s. run. by rewrite bool_decide_eq_false_2 by auto. Qed.

Lemma setHeader_writing (header_ : list string) (s : Sys) :
  header (self s) ≠ header_ → writing (self s) = true →
  exec (setHeader header_) s
  = {| self := self s; world := world s;
       out := out s ++
         [Critical "CSVLogger::setHeader(): header cannot be changed while writing."] |}.
Proof.
  intros Hne Hw. open_sys s. subst. run. by rewrite bool_decide_eq_true_2 by done.
Qed.

Lemma setHeader_idle (header_ : list string) (s : Sys) :
  header (self s) ≠ header_ → writing (self s) = false →
  exec (setHeader header_) s
  = {| self := with_header header_ (self s); world := world s;
       out := out s ++ [Emit headerChanged] |}.
Proof.
  intros Hne Hw. open_sys s. subst. run. by rewrite bool_decide_eq_true_2 by done.
Qed.

(** ** What every call keeps *)

Lemma consistent_new : consistent CSVLogger_new.
Proof. unfold consistent. cbn. intuition congruence. Qed.

Lemma flush_consistent (s : Sys) :
  consistent (self s) → exec writer_flush s = s.
Proof. intros (Hbuf & _). by apply flush_idle. Qed.

Section Invariant.

Variable os : Platform.

Lemma close_consistent (s : Sys) :
  consistent (self s) → consistent (self (exec close s)).
Proof.
  intros Hc. rewrite close_run, (flush_consistent s Hc).
  open_sys s. unfold consistent in *. step.
  destruct fopen; step; intuition congruence.
Qed.

Lemma setFilename_consistent (filename_ : string) (s : Sys) :
  consistent (self s) → consistent (self (exec (setFilename filename_) s)).
Proof.
  intros Hc. destruct (decide (filename (self s) = filename_)) as [<-|Hne].
  - by rewrite setFilename_same.
  - rewrite setFilename_new, (flush_consistent s Hc) by done.
    open_sys s. unfold consistent in *. step.
    destruct fopen; step; intuition congruence.
Qed.

Lemma setLogTime_consistent (logTime_ : bool) (s : Sys) :
  consistent (self s) → consistent (self (exec (setLogTime logTime_) s)).
Proof.
  intros Hc. destruct (decide (logTime (self s) = logTime_)) as [<-|Hne].
  - by rewrite setLogTime_same.
  - destruct (writing (self s)) eqn:Hw.
    + by rewrite setLogTime_writing.
    + rewrite setLogTime_idle by done. open_sys s. unfold consistent in *. by step.
Qed.

Lemma setHeader_consistent (header_ : list string) (s : Sys) :
  consistent (self s) → consistent (self (exec (setHeader header_) s)).
Proof.
  intros Hc. destruct (decide (header (self s) = header_)) as [<-|Hne].
  - by rewrite setHeader_same.
  - destruct (writing (self s)) eqn:Hw.
    + by rewrite setHeader_writing.
    + rewrite setHeader_idle by done. open_sys s. unfold consistent in *. by step.
Qed.

Lemma log_consistent (now : QDateTime) (data : QVariantList) (s : Sys) :
  consistent (self s) → consistent (self (exec (log os now data) s)).
Proof.
  intros Hc.
  destruct (enabled (self s)) eqn:Hen; [| by rewrite log_disabled].
  destruct (toConsole (self s)) eqn:Hcon; [by rewrite log_console |].
  destruct (fileNeedsReopen (self s)) eqn:Hre.
  - destruct (openable (world s) (target os (self s))) eqn:Hopen.
    + rewrite log_reopen_ok by (done || apply Hc).
      cbv zeta. generalize (target os (self s)) as path. intros path.
      open_sys s. unfold consistent in *. step.
      destruct (String.eqb _ ""); step; intuition congruence.
    + rewrite log_reopen_fail by done.
      generalize (target os (self s)) as path. intros path.
      generalize (open_error (world s) (file (self s)) path). intros err.
      open_sys s. unfold consistent in *. step. intuition congruence.
  - destruct (isOpen (file (self s))) eqn:Hfile.
    + pose proof Hc as (Hbuf & _ & _ & Hop).
      destruct (Hop Hfile) as (Hdev & _ & _).
      rewrite log_open by done.
      open_sys s. unfold consistent in *. step. intuition congruence.
    + by rewrite log_closed.
Qed.

(** Every method leaves the members consistent. *)
Lemma call_consistent (c : Call) (s : Sys) :
  consistent (self s) → consistent (self (exec (call os c) s)).
Proof.
  destruct c; cbn [call].
  - apply setFilename_consistent.
  - apply setLogTime_consistent.
  - apply setHeader_consistent.
  - apply log_consistent.
  - apply close_consistent.
Qed.

Lemma exec_calls_cons (c : Call) (cs : list Call) (s : Sys) :
  exec (calls os (c :: cs)) s = exec (calls os cs) (exec (call os c) s).
Proof. cbn [calls]. apply exec_bind. Qed.

Lemma calls_consistent (cs : list Call) (s : Sys) :
  consistent (self s) → consistent (self (exec (calls os cs) s)).
Proof.
  revert s; induction cs as [|c cs IH]; intros s Hc; [done |].
  rewrite exec_calls_cons. by apply IH, call_consistent.
Qed.

End Invariant.

(** ** Rows in sequence *)

Section Rows.

Variable os : Platform.

Lemma exec_logs_cons now data (rows : list (QDateTime * QVariantList)) (s : Sys) :
  exec (logs os ((now, data) :: rows)) s
  = exec (logs os rows) (exec (log os now data) s).
Proof. unfold logs. cbn [map]. apply exec_calls_cons. Qed.

Lemma data_lines_cons (o : CSVLogger) now data rows :
  data_lines os o ((now, data) :: rows)
  = (data_line os o now data +:+ nl) +:+ data_lines os o rows.
Proof.
  unfold data_lines. cbn [map fst snd].
  destruct rows as [|r rows]; cbn [map]; [by rewrite append_nil_r |].
  by rewrite concat_cons2, append_nil_l.
Qed.

Lemma data_lines_config (o o' : CSVLogger) rows :
  same_config o o' → data_lines os o' rows = data_lines os o rows.
Proof.
  intros Hcfg. unfold data_lines. f_equal.
  apply map_ext. intros r. by rewrite (data_line_config os o o').
Qed.

(** Rows logged to an open file are appended in call order; the session
    stays open and the configuration is untouched. *)
Lemma logs_open (rows : list (QDateTime * QVariantList)) (s : Sys) :
  open_for_rows (self s) →
  let s' := exec (logs os rows) s in
  open_for_rows (self s') ∧ same_config (self s) (self s') ∧
  fileName (file (self s')) = fileName (file (self s)) ∧
  filename (self s') = filename (self s) ∧
  writing (self s') = writing (self s) ∧
  content (world s') (fileName (file (self s)))
  = content (world s) (fileName (file (self s))) +:+ data_lines os (self s) rows ∧
  (∀ path, path ≠ fileName (file (self s)) →
           files (world s') !! path = files (world s) !! path) ∧
  denied (world s') = denied (world s).
Proof.
  revert s; induction rows as [|[now data] rows IH]; intros s Hs; cbv zeta.
  - change (exec (logs os []) s) with s.
    unfold data_lines. cbn [map String.concat]. rewrite append_nil_r.
    unfold same_config. intuition.
  - destruct Hs as (Hen & Hcon & Hre & Hop & Hdev & Hbuf).
    rewrite exec_logs_cons, log_open by done.
    set (s1 := {| self := _; world := _; out := _ |}).
    assert (Hs1 : open_for_rows (self s1)).
    { subst s1. open_sys s. subst. unfold open_for_rows. by step. }
    assert (Hcfg : same_config (self s) (self s1)).
    { subst s1. open_sys s. unfold same_config. by step. }
    assert (Hname : fileName (file (self s1)) = fileName (file (self s))).
    { subst s1. open_sys s. by step. }
    destruct (IH s1 Hs1) as (Hopen' & Hcfg' & Hname' & Hfn' & Hw' & Hcontent & Hframe & Hden).
    rewrite Hname in *.
    refine (conj Hopen' (conj _ (conj _ (conj _ (conj _ (conj _ (conj _ _))))))).
    + unfold same_config in *. intuition congruence.
    + done.
    + rewrite Hfn'. subst s1. open_sys s. by step.
    + rewrite Hw'. subst s1. open_sys s. by step.
    + rewrite Hcontent, data_lines_cons, (data_lines_config _ _ rows Hcfg).
      subst s1. unfold content. step. rewrite lookup_insert_eq. cbn [from_option id].
      by rewrite !append_assoc.
    + intros path Hpath. rewrite Hframe by done.
      subst s1. step. by rewrite lookup_insert_ne.
    + rewrite Hden. subst s1. by step.
Qed.

End Rows.

(** ** The first row of a file *)

Section FirstRow.

Variable os : Platform.

(** What a successful reopening [log] leaves behind. *)
Lemma log_reopen_ok_facts (now : QDateTime) (data : QVariantList) (s : Sys) :
  enabled (self s) = true → toConsole (self s) = false →
  fileNeedsReopen (self s) = true → buffer (writer (self s)) = "" →
  openable (world s) (target os (self s)) = true →
  let s' := exec (log os now data) s in
  let path := target os (self s) in
  let before := content (world s) path in
  open_for_rows (self s') ∧ same_config (self s) (self s') ∧
  fileName (file (self s')) = path ∧ filename (self s') = path ∧
  writing (self s') = true ∧
  content (world s') path
  = before +:+ heading (self s) before +:+ data_line os (self s) now data +:+ nl ∧
  (∀ p, p ≠ path → files (world s') !! p = files (world s) !! p) ∧
  denied (world s') = denied (world s) ∧
  out s' = out s ++ resolve_events os (self s) ++ length_warning (self s) data.
Proof.
  intros Hen Hcon Hre Hbuf Hopen. cbv zeta.
  rewrite log_reopen_ok by done. cbv zeta.
  generalize (resolve_events os (self s)). intros events.
  generalize (target os (self s)). intros path.
  generalize (data_line os (self s) now data). intros line.
  generalize (heading (self s) (content (world s) path)). intros head.
  open_sys s. subst. unfold open_for_rows, same_config, content. step.
  rewrite lookup_insert_eq. cbn [from_option id].
  repeat split; try done.
  - by destruct (String.eqb _ "").
  - by destruct (String.eqb _ "").
  - intros p Hp. by rewrite lookup_insert_ne.
Qed.

End FirstRow.

(** * The claims of the specification *)

Lemma append_length_ne (a b : string) : a ≠ "" → a +:+ b ≠ b.
Proof.
  intros Ha H. apply (f_equal String.length) in H.
  rewrite length_append in H. destruct a; [done |].
  cbn [String.length] in H. lia.
Qed.

Section Claims.

Variable os : Platform.

(** C1 (amended): after construction neither [fileNeedsReopen] nor
    [writing] is set and the session is Closed, not NeedsReopen: a [log] call
    in file mode made before any [setFilename] or [close] resolves no path
    and opens no file; it reports the critical "File is not open" diagnostic
    and drops the row, leaving the object and the files as they were.  The
    session becomes NeedsReopen with [close], or with the first [setFilename]
    that gives a name other than the empty initial one. *)
Theorem C1_fresh_logger_is_closed (w : World) (now : QDateTime)
    (data : QVariantList) (filename_ : string) :
  filename_ ≠ "" →
  fileNeedsReopen CSVLogger_new = false ∧ writing CSVLogger_new = false ∧
  session CSVLogger_new = Closed ∧
  exec (log os now data) (boot w)
  = {| self := CSVLogger_new; world := w;
       out := [Critical "CSVLogger::log(): File is not open, valid filename must be provided beforehand."] |} ∧
  session (self (exec close (boot w))) = NeedsReopen ∧
  session (self (exec (setFilename filename_) (boot w))) = NeedsReopen ∧
  session (self (exec (setFilename "") (boot w))) = Closed.
Proof.
  intros Hname. do 3 (split; [reflexivity |]).
  split; [by rewrite log_closed |].
  split; [by rewrite close_run |]. split.
  - rewrite setFilename_new by (cbn; congruence). reflexivity.
  - pose proof (setFilename_same (boot w)) as Hsame.
    cbn [boot self filename CSVLogger_new] in Hsame. by rewrite Hsame.
Qed.

(** C2: N >= 1 rows logged in file mode to a session that needs its file
    opened, with the open succeeding, leave in the file what was there, then
    the header line exactly when the file was empty at the open, then one
    line per row in call order.  An empty (or absent) file thus holds one
    header line and N data lines; a file that was not empty gets no header. *)
Theorem C2_header_once (rows : list (QDateTime * QVariantList)) (s : Sys) :
  rows ≠ [] →
  enabled (self s) = true → toConsole (self s) = false →
  fileNeedsReopen (self s) = true → buffer (writer (self s)) = "" →
  openable (world s) (target os (self s)) = true →
  let path := target os (self s) in
  let before := content (world s) path in
  let after := content (world (exec (logs os rows) s)) path in
  after = before +:+ heading (self s) before +:+ data_lines os (self s) rows ∧
  (before = "" → after = header_line (self s) +:+ nl +:+ data_lines os (self s) rows) ∧
  (before ≠ "" → after = before +:+ data_lines os (self s) rows).
Proof.
  intros Hrows Hen Hcon Hre Hbuf Hopen. cbv zeta.
  assert (Hmain :
    content (world (exec (logs os rows) s)) (target os (self s))
    = content (world s) (target os (self s)) +:+
      heading (self s) (content (world s) (target os (self s))) +:+
      data_lines os (self s) rows).
  { destruct rows as [|[now data] rows]; [done |].
    rewrite exec_logs_cons.
    destruct (log_reopen_ok_facts os now data s Hen Hcon Hre Hbuf Hopen)
      as (Hs1 & Hcfg & Hname & _ & _ & Hcontent & _).
    destruct (logs_open os rows _ Hs1) as (_ & _ & _ & _ & _ & Hrest & _).
    rewrite Hname in Hrest.
    rewrite Hrest, Hcontent, data_lines_cons, (data_lines_config os _ _ rows Hcfg).
    by rewrite !append_assoc. }
  split; [exact Hmain |]. split; intros Hbefore; rewrite Hmain.
  - rewrite Hbefore. unfold heading. cbn [String.eqb].
    by rewrite append_nil_l, append_assoc.
  - unfold heading. by rewrite (proj2 (String.eqb_neq _ _) Hbefore), append_nil_l.
Qed.

(** C3 (amended): while [writing] is set, no call of [setHeader] or
    [setLogTime] changes the object or the files.  A call whose value differs
    from the stored one reports one critical diagnostic; a call with the
    stored value reports nothing. *)
Theorem C3_immutable_while_writing (logTime_ : bool) (header_ : list string)
    (s : Sys) :
  writing (self s) = true →
  let s1 := exec (setLogTime logTime_) s in
  let s2 := exec (setHeader header_) s in
  self s1 = self s ∧ world s1 = world s ∧
  self s2 = self s ∧ world s2 = world s ∧
  out s1 = out s ++
    (if bool_decide (logTime (self s) ≠ logTime_)
     then [Critical "CSVLogger::setLogTime(): logTime cannot be changed while writing."]
     else []) ∧
  out s2 = out s ++
    (if bool_decide (header (self s) ≠ header_)
     then [Critical "CSVLogger::setHeader(): header cannot be changed while writing."]
     else []).
Proof.
  intros Hw. cbv zeta.
  destruct (decide (logTime (self s) = logTime_)) as [<-|Ht];
    destruct (decide (header (self s) = header_)) as [<-|Hh];
    rewrite ?setLogTime_same, ?setHeader_same,
      ?(setLogTime_writing _ _ Ht Hw), ?(setHeader_writing _ _ Hh Hw);
    cbn [self world out]; repeat case_bool_decide; try done;
    rewrite ?app_nil_r; done.
Qed.

(** C4: a [log] call in file mode whose open fails reports a critical
    diagnostic and writes nothing; the session still needs its reopen and
    [writing] is still unset, and the next [log] call opens the file as soon
    as the path can be opened. *)
Theorem C4_open_failure (now : QDateTime) (data : QVariantList) (s : Sys)
    (w' : World) (now' : QDateTime) (data' : QVariantList) :
  enabled (self s) = true → toConsole (self s) = false →
  fileNeedsReopen (self s) = true → consistent (self s) →
  openable (world s) (target os (self s)) = false →
  openable w' (target os (with_filename (target os (self s)) (self s))) = true →
  let s' := exec (log os now data) s in
  out s' = out s ++ resolve_events os (self s) ++
    [Critical ("CSVLogger::log(): Could not open file: " +:+
               open_error (world s) (file (self s)) (target os (self s)))] ∧
  world s' = world s ∧
  fileNeedsReopen (self s') = true ∧ writing (self s') = false ∧
  isOpen (file (self s')) = false ∧ session (self s') = NeedsReopen ∧
  let s'' := exec (log os now' data')
               {| self := self s'; world := w'; out := out s' |} in
  isOpen (file (self s'')) = true ∧ writing (self s'') = true ∧
  session (self s'') = Open.
Proof.
  intros Hen Hcon Hre Hc Hfail Hretry. cbv zeta.
  destruct Hc as (Hbuf & Hw & _). specialize (Hw Hre).
  rewrite log_reopen_fail by done.
  cbn [self world out].
  set (o' := with_file _ (with_filename (target os (self s)) (self s))).
  set (events := out s ++ _).
  assert (Ho' : enabled o' = true ∧ toConsole o' = false ∧
                fileNeedsReopen o' = true ∧ buffer (writer o') = "" ∧
                writing o' = false ∧ isOpen (file o') = false ∧
                target os o' = target os (with_filename (target os (self s)) (self s))).
  { subst o'. open_sys s. subst. by step. }
  destruct Ho' as (Hen' & Hcon' & Hre' & Hbuf' & Hw' & Hop' & Htarget).
  do 5 (split; [done |]).
  split; [unfold session; by rewrite Hre' |].
  rewrite <- Htarget in Hretry.
  destruct (log_reopen_ok_facts os now' data'
              {| self := o'; world := w'; out := events |}
              Hen' Hcon' Hre' Hbuf' Hretry)
    as ((_ & _ & Hre'' & Hop'' & _) & _ & _ & _ & Hw'' & _).
  unfold session. by rewrite Hre'', Hop''.
Qed.

(** C5: with [toConsole] set, an enabled [log] call sends exactly one line,
    the formatted row, to the console sink, and touches neither the object
    (file name, session, [writing]) nor any file. *)
Theorem C5_console_bypass (now : QDateTime) (data : QVariantList) (s : Sys) :
  enabled (self s) = true → toConsole (self s) = true →
  let s' := exec (log os now data) s in
  debugs (out s') = debugs (out s) ++ [data_line os (self s) now data] ∧
  out s' = out s ++ length_warning (self s) data ++
           [Debug (data_line os (self s) now data)] ∧
  self s' = self s ∧ world s' = world s.
Proof.
  intros Hen Hcon. cbv zeta. rewrite log_console by done. cbn [self world out].
  repeat split. unfold debugs, length_warning. rewrite !omap_app.
  by destruct (length data =? length (header (self s)))%nat.
Qed.

(** C6: [setFilename] with a name other than the stored one leaves the file
    closed and the stream flushed, stores the name, sets the session to
    NeedsReopen, clears [writing] and emits [filenameChanged]; the next [log]
    call opens the new path, writes the header line if that file is empty
    and then the row, and touches no other file. *)
Theorem C6_setFilename_reopens (filename_ : string) (now : QDateTime)
    (data : QVariantList) (s : Sys) :
  filename (self s) ≠ filename_ → consistent (self s) →
  enabled (self s) = true → toConsole (self s) = false →
  openable (world s) (target os (with_filename filename_ (self s))) = true →
  let s1 := exec (setFilename filename_) s in
  let s2 := exec (log os now data) s1 in
  let path := target os (self s1) in
  let before := content (world s) path in
  isOpen (file (self s1)) = false ∧ buffer (writer (self s1)) = "" ∧
  filename (self s1) = filename_ ∧ session (self s1) = NeedsReopen ∧
  writing (self s1) = false ∧ world s1 = world s ∧
  out s1 = out s ++ [Emit filenameChanged] ∧
  isOpen (file (self s2)) = true ∧ fileName (file (self s2)) = path ∧
  content (world s2) path
  = before +:+ heading (self s) before +:+ data_line os (self s) now data +:+ nl ∧
  (∀ p, p ≠ path → files (world s2) !! p = files (world s) !! p).
Proof.
  intros Hne Hc Hen Hcon Hopen. cbv zeta.
  rewrite setFilename_new, (flush_consistent s Hc) by done. cbv zeta.
  set (s1 := {| self := _; world := world s; out := _ |}).
  assert (Hcfg : same_config (self s) (self s1)).
  { subst s1. open_sys s. unfold same_config. by step. }
  assert (Htarget : target os (self s1) = target os (with_filename filename_ (self s)))
    by (subst s1; open_sys s; by step).
  destruct (log_reopen_ok_facts os now data s1)
    as ((_ & _ & _ & Hop & _) & _ & Hname & _ & _ & Hcontent & Hframe & _).
  1-5: subst s1; try rewrite Htarget; open_sys s; step;
       destruct Hc as (? & _); by subst.
  unfold heading in *.
  rewrite (header_line_config _ _ Hcfg), (data_line_config _ _ _ _ _ Hcfg) in Hcontent.
  repeat split; try done.
  all: subst s1; open_sys s; destruct Hc as (? & _); subst; step; try done.
  by destruct fopen.
Qed.

(** C9: [setHeader] and [setLogTime] called with the stored value do nothing
    in any state: no diagnostic, no notification, no change; so a second call
    with one value leaves the object as the first call left it. *)
Theorem C9_same_value_is_noop (logTime_ : bool) (header_ : list string) (s : Sys) :
  exec (setLogTime (logTime (self s))) s = s ∧
  exec (setHeader (header (self s))) s = s ∧
  self (exec (setLogTime logTime_) (exec (setLogTime logTime_) s))
  = self (exec (setLogTime logTime_) s) ∧
  self (exec (setHeader header_) (exec (setHeader header_) s))
  = self (exec (setHeader header_) s).
Proof.
  split; [apply setLogTime_same |]. split; [apply setHeader_same |]. split.
  - destruct (decide (logTime (self s) = logTime_)) as [<-|Hne].
    + by rewrite !setLogTime_same.
    + destruct (writing (self s)) eqn:Hw.
      * rewrite (setLogTime_writing _ _ Hne Hw).
        by rewrite setLogTime_writing.
      * rewrite (setLogTime_idle _ _ Hne Hw).
        by rewrite (setLogTime_same {| self := with_logTime logTime_ (self s);
                                       world := _; out := _ |}).
  - destruct (decide (header (self s) = header_)) as [<-|Hne].
    + by rewrite !setHeader_same.
    + destruct (writing (self s)) eqn:Hw.
      * rewrite (setHeader_writing _ _ Hne Hw).
        by rewrite setHeader_writing.
      * rewrite (setHeader_idle _ _ Hne Hw).
        by rewrite (setHeader_same {| self := with_header header_ (self s);
                                      world := _; out := _ |}).
Qed.

(** C10: a [log] call in file mode that finds the session in NeedsReopen
    with a relative file name stores the resolved absolute path and emits
    [filenameChanged] before it tries the open, and keeps the stored path
    when the open fails: the stored name then differs from the one the
    caller set, while the session still needs its reopen, [writing] is
    unchanged and no file is touched. *)
Theorem C10_resolved_name_survives_failure (now : QDateTime)
    (data : QVariantList) (s : Sys) :
  enabled (self s) = true → toConsole (self s) = false →
  fileNeedsReopen (self s) = true →
  isAbsolute os (filename (self s)) = false →
  openable (world s) (writableLocation os +:+ "/" +:+ filename (self s)) = false →
  let s' := exec (log os now data) s in
  let resolved := writableLocation os +:+ "/" +:+ filename (self s) in
  filename (self s') = resolved ∧ filename (self s') ≠ filename (self s) ∧
  out s' = out s ++
    [Debug ("CSVLogger::log(): Absolute path not given, opening " +:+ resolved +:+ " to log.");
     Emit filenameChanged;
     Critical ("CSVLogger::log(): Could not open file: " +:+
               open_error (world s) (file (self s)) resolved)] ∧
  fileNeedsReopen (self s') = true ∧ writing (self s') = writing (self s) ∧
  isOpen (file (self s')) = false ∧ world s' = world s.
Proof.
  intros Hen Hcon Hre Habs Hfail. cbv zeta.
  assert (Htarget : target os (self s) = writableLocation os +:+ "/" +:+ filename (self s))
    by (unfold target; by rewrite Habs).
  rewrite log_reopen_fail by (by rewrite ?Htarget).
  unfold resolve_events. rewrite Habs, Htarget.
  cbn [self world out].
  repeat split; try (open_sys s; by step).
  open_sys s. step. rewrite <- append_assoc. by apply append_length_ne, append_ne_nil_r.
Qed.

(** C7 (amended): in the built line the values are separated by a comma
    and a space; a value whose QVariant type is Double, when it is finite and
    the precision is not negative, is written as a fixed-point numeral with
    exactly [precision] fractional digits (3.14159 with precision 2 gives
    "3.14"); every other value, integers included, is written by its
    [toString]; with [logTime] and without [logMillis] the timestamp has the
    form YYYY-MM-DD HH:MM:SS and no milliseconds. *)
Theorem C7_formatting (now : QDateTime) (data : QVariantList) (d : double)
    (v : QVariant) (s : Sys) :
  (0 ≤ precision (self s))%Z → finite d = true → type v ≠ Double →
  valid_datetime now →
  (buildLogLine os now data s).1
  = timestamp (self s) now +:+ lead (self s) data +:+
    String.concat ", " (map (render os (precision (self s))) data) ∧
  fixed_point (Z.to_nat (precision (self s)))
    (render os (precision (self s)) (QVDouble d)) ∧
  render os (precision (self s)) v = toString os v ∧
  render os 2 (QVDouble d_3_14159) = "3.14" ∧
  (logTime (self s) = true → logMillis (self s) = false →
   shape "dddd-dd-dd dd:dd:dd" (timestamp (self s) now) = true) ∧
  (logTime (self s) = true → logMillis (self s) = true →
   shape "dddd-dd-dd dd:dd:dd.ddd" (timestamp (self s) now) = true).
Proof.
  intros Hp Hd Hv Hnow.
  split; [by rewrite buildLogLine_run |].
  split; [by apply number_f_fixed_point |].
  split; [by destruct v |].
  split; [unfold render; destruct (ties_to_even os); vm_compute; reflexivity |].
  split; intros Ht Hm; unfold timestamp; rewrite Ht, Hm.
  - by apply shape_seconds.
  - by apply shape_millis.
Qed.

(** C8: a row whose length is not the header's gets a warning and is
    logged all the same, with every value the caller gave: to the console in
    console mode, to the end of the file when the session is open, and
    behind the header when the call opens the file. *)
Theorem C8_length_mismatch (now : QDateTime) (data : QVariantList) (s : Sys) :
  length data ≠ length (header (self s)) → enabled (self s) = true →
  let s' := exec (log os now data) s in
  let line := timestamp (self s) now +:+ lead (self s) data +:+
              String.concat ", " (map (render os (precision (self s))) data) in
  let warning := Warning "CSVLogger::buildLogLine(): Data and header don't have the same length, log file will not be correct." in
  buildLogLine os now data s
  = (line, {| self := self s; world := world s; out := out s ++ [warning] |}) ∧
  (toConsole (self s) = true → out s' = out s ++ [warning; Debug line]) ∧
  (open_for_rows (self s) →
   out s' = out s ++ [warning] ∧
   content (world s') (fileName (file (self s)))
   = content (world s) (fileName (file (self s))) +:+ line +:+ nl) ∧
  (toConsole (self s) = false → fileNeedsReopen (self s) = true →
   buffer (writer (self s)) = "" →
   openable (world s) (target os (self s)) = true →
   out s' = out s ++ resolve_events os (self s) ++ [warning] ∧
   content (world s') (target os (self s))
   = content (world s) (target os (self s)) +:+
     heading (self s) (content (world s) (target os (self s))) +:+ line +:+ nl).
Proof.
  intros Hlen Hen. cbv zeta.
  assert (Hwarn : length_warning (self s) data
    = [Warning "CSVLogger::buildLogLine(): Data and header don't have the same length, log file will not be correct."]).
  { unfold length_warning. by rewrite (proj2 (Nat.eqb_neq _ _) Hlen). }
  fold (data_line os (self s) now data).
  split; [by rewrite buildLogLine_run, Hwarn |].
  split; [intros Hcon; by rewrite log_console, Hwarn |].
  split.
  - intros (_ & Hcon & Hre & Hop & Hdev & Hbuf).
    rewrite log_open by done. cbn [self world out]. rewrite Hwarn.
    split; [done |]. unfold content at 1. cbn [files].
    by rewrite lookup_insert_eq.
  - intros Hcon Hre Hbuf Hopen.
    destruct (log_reopen_ok_facts os now data s Hen Hcon Hre Hbuf Hopen)
      as (_ & _ & _ & _ & _ & Hcontent & _ & _ & Hout).
    by rewrite Hout, Hcontent, Hwarn.
Qed.

End Claims.

(** ** The claims on sample inputs *)

Transparent buildLogLine buildHeaderString.

Lemma named_consistent (w : World) : consistent (self (named w)).
Proof. apply setFilename_consistent, consistent_new. Qed.

(** C1 as stated fails: a constructed logger is not in NeedsReopen, and its
    first [log] call opens nothing, though the file could be opened. *)
Lemma C1_fresh_logger_not_NeedsReopen :
  session CSVLogger_new ≠ NeedsReopen ∧
  exec (log posix sample_now sample_row) (boot empty_world)
  = {| self := CSVLogger_new; world := empty_world;
       out := [Critical "CSVLogger::log(): File is not open, valid filename must be provided beforehand."] |}.
Proof. split; [discriminate | reflexivity]. Qed.

Lemma C1_witness :
  session (self (exec (setFilename "log.csv") (boot empty_world))) = NeedsReopen.
Proof.
  refine (proj1 (proj2 (proj2 (proj2 (proj2 (proj2
    (C1_fresh_logger_is_closed posix empty_world sample_now sample_row "log.csv" _))))))).
  discriminate.
Defined.

Lemma C2_witness :
  content
    (world (exec (logs posix [(sample_now, sample_row); (sample_now, [QVInt 1])])
              (named empty_world)))
    "/home/user/Documents/log.csv"
  = header_line (self (named empty_world)) +:+ nl +:+
    data_lines posix (self (named empty_world))
      [(sample_now, sample_row); (sample_now, [QVInt 1])].
Proof.
  refine (proj1 (proj2
    (C2_header_once posix [(sample_now, sample_row); (sample_now, [QVInt 1])]
       (named empty_world) _ _ _ _ _ _)) _);
    first [discriminate | reflexivity | vm_compute; reflexivity].
Defined.

(** C3 as stated fails: while writing, a setter called with the stored value
    reports no diagnostic. *)
Lemma C3_stored_value_no_diagnostic :
  writing (self running) = true ∧
  out (exec (setLogTime true) running) = out running ∧
  out (exec (setHeader []) running) = out running.
Proof. vm_compute. done. Qed.

Lemma C3_witness :
  out (exec (setLogTime false) running)
  = out running ++
    [Critical "CSVLogger::setLogTime(): logTime cannot be changed while writing."].
Proof.
  refine (proj1 (proj2 (proj2 (proj2 (proj2
    (C3_immutable_while_writing false ["a"] running _)))))).
  vm_compute. reflexivity.
Defined.

Lemma C4_witness :
  world (exec (log posix sample_now sample_row) (named locked_world)) = locked_world ∧
  fileNeedsReopen (self (exec (log posix sample_now sample_row) (named locked_world)))
  = true.
Proof.
  pose proof (C4_open_failure posix sample_now sample_row (named locked_world)
                empty_world sample_now sample_row) as H.
  destruct H as (_ & Hworld & Hre & _).
  - reflexivity.
  - reflexivity.
  - reflexivity.
  - apply named_consistent.
  - vm_compute. reflexivity.
  - vm_compute. reflexivity.
  - split; [exact Hworld | exact Hre].
Defined.

Lemma C5_witness :
  out (exec (log posix sample_now [QVInt 1; QVInt 2]) on_console)
  = [Debug "2016-06-15 09:05:00, 1, 2"] ∧
  self (exec (log posix sample_now [QVInt 1; QVInt 2]) on_console) = self on_console.
Proof.
  destruct (C5_console_bypass posix sample_now [QVInt 1; QVInt 2] on_console)
    as (_ & Hout & Hself & _); [reflexivity | reflexivity |].
  split; [| exact Hself]. rewrite Hout. vm_compute. reflexivity.
Defined.

Lemma C6_witness :
  session (self (exec (setFilename "/tmp/other.csv") running)) = NeedsReopen ∧
  out (exec (setFilename "/tmp/other.csv") running)
  = out running ++ [Emit filenameChanged].
Proof.
  destruct (C6_setFilename_reopens posix "/tmp/other.csv" sample_now sample_row running)
    as (_ & _ & _ & Hsession & _ & _ & Hout & _).
  - vm_compute. discriminate.
  - apply log_consistent, named_consistent.
  - reflexivity.
  - reflexivity.
  - vm_compute. reflexivity.
  - split; [exact Hsession | exact Hout].
Defined.

(** C7 as stated fails: an integer is a numeric value and is written without
    fractional digits, and a NaN is written as such. *)
Lemma C7_integer_has_no_fraction :
  (buildLogLine posix sample_now [QVInt 3] (boot empty_world)).1
  = "2016-06-15 09:05:00.042, 3" ∧
  ¬ fixed_point 2 (render posix 2 (QVInt 3)) ∧
  ¬ fixed_point 2 (render posix 2 (QVDouble S754_nan)).
Proof.
  split; [vm_compute; reflexivity |].
  split; intros H; apply fixed_point_length in H; vm_compute in H; lia.
Qed.

Lemma C7_witness :
  fixed_point 2 (render posix 2 (QVDouble d_3_14159)) ∧
  render posix 2 (QVString "x") = "x".
Proof.
  destruct (C7_formatting posix sample_now sample_row d_3_14159 (QVString "x")
              (boot empty_world))
    as (_ & Hfixed & Htext & _).
  - vm_compute. discriminate.
  - reflexivity.
  - discriminate.
  - vm_compute. intuition discriminate.
  - split; [exact Hfixed | exact Htext].
Defined.

Lemma C8_witness :
  out (exec (log posix sample_now [QVInt 1; QVInt 2; QVInt 3]) on_console)
  = [Warning "CSVLogger::buildLogLine(): Data and header don't have the same length, log file will not be correct.";
     Debug "2016-06-15 09:05:00, 1, 2, 3"].
Proof.
  destruct (C8_length_mismatch posix sample_now [QVInt 1; QVInt 2; QVInt 3] on_console)
    as (_ & Hconsole & _).
  - vm_compute. lia.
  - reflexivity.
  - rewrite Hconsole by reflexivity. vm_compute. reflexivity.
Defined.

Lemma C10_witness :
  filename (self (exec (log posix sample_now sample_row) (named locked_world)))
  = "/home/user/Documents/log.csv".
Proof.
  destruct (C10_resolved_name_survives_failure posix sample_now sample_row
              (named locked_world))
    as (Hname & _).
  - reflexivity.
  - reflexivity.
  - reflexivity.
  - reflexivity.
  - vm_compute. reflexivity.
  - exact Hname.
Defined.

(** * Further properties of the session *)

Section More.

Variable os : Platform.

(** Rows logged to a session that needs its file opened: what the first
    call sets up and the others keep. *)
Lemma logs_reopen_facts (rows : list (QDateTime * QVariantList)) (s : Sys) :
  rows ≠ [] →
  enabled (self s) = true → toConsole (self s) = false →
  fileNeedsReopen (self s) = true → buffer (writer (self s)) = "" →
  openable (world s) (target os (self s)) = true →
  let s' := exec (logs os rows) s in
  let path := target os (self s) in
  let before := content (world s) path in
  open_for_rows (self s') ∧ same_config (self s) (self s') ∧
  fileName (file (self s')) = path ∧ filename (self s') = path ∧
  writing (self s') = true ∧
  content (world s') path
  = before +:+ heading (self s) before +:+ data_lines os (self s) rows ∧
  (∀ p, p ≠ path → files (world s') !! p = files (world s) !! p) ∧
  denied (world s') = denied (world s).
Proof.
  intros Hrows Hen Hcon Hre Hbuf Hopen. cbv zeta.
  destruct rows as [|[now data] rows]; [done |].
  rewrite exec_logs_cons.
  destruct (log_reopen_ok_facts os now data s Hen Hcon Hre Hbuf Hopen)
    as (Hs1 & Hcfg & Hname & Hfn & Hw & Hcontent & Hframe & Hden & _).
  destruct (logs_open os rows _ Hs1)
    as (Hs2 & Hcfg' & Hname' & Hfn' & Hw' & Hrest & Hframe' & Hden').
  rewrite Hname in *.
  refine (conj Hs2 (conj _ (conj _ (conj _ (conj _ (conj _ (conj _ _))))))).
  - unfold same_config in *. intuition congruence.
  - done.
  - by rewrite Hfn'.
  - by rewrite Hw'.
  - rewrite Hrest, Hcontent, data_lines_cons, (data_lines_config os _ _ rows Hcfg).
    by rewrite !append_assoc.
  - intros p Hp. by rewrite Hframe', Hframe.
  - by rewrite Hden'.
Qed.

Lemma data_lines_nonempty (o : CSVLogger) rows :
  rows ≠ [] → data_lines os o rows ≠ "".
Proof.
  destruct rows as [|[now data] rows]; [done |]. intros _.
  rewrite data_lines_cons, append_assoc.
  by apply append_ne_nil_r.
Qed.

(** X1: [close] is idempotent: a second [close] changes nothing, and after
    the first the session needs a reopen, [writing] is unset, the file is
    closed and nothing was reported. *)
Theorem X1_close_idempotent (s : Sys) :
  exec close (exec close s) = exec close s ∧
  session (self (exec close s)) = NeedsReopen ∧
  writing (self (exec close s)) = false ∧
  isOpen (file (self (exec close s))) = false ∧
  out (exec close s) = out s.
Proof.
  open_sys s. run.
  destruct dev, (String.eqb buf "") eqn:Hbuf, fopen; step;
    rewrite ?Hbuf, ?String.eqb_refl; step; done.
Qed.

(** X2: whatever the sequence of calls on a constructed logger, the stream
    holds no unflushed text, [writing] is set exactly when the file is open,
    which is exactly when the session is Open, and an open file is the one
    named by [filename]. *)
Theorem X2_session_invariant (w : World) (cs : list Call) :
  let o := self (exec (calls os cs) (boot w)) in
  buffer (writer o) = "" ∧
  writing o = isOpen (file o) ∧
  writing o = bool_decide (session o = Open) ∧
  (if writing o then bool_decide (fileName (file o) = filename o) else true) = true ∧
  (if fileNeedsReopen o then negb (writing o) else true) = true.
Proof.
  cbv zeta.
  pose proof (calls_consistent os cs (boot w) consistent_new) as (Hbuf & Hre & Hw & Hop).
  set (o := self (exec (calls os cs) (boot w))) in *.
  split; [done |]. split; [done |].
  unfold session. rewrite Hw.
  destruct (isOpen (file o)) eqn:Hfile.
  - destruct (Hop eq_refl) as (_ & -> & Hname).
    by rewrite (bool_decide_eq_true_2 _ Hname).
  - by destruct (fileNeedsReopen o).
Qed.

(** X3: [buildHeaderString] changes nothing and returns [timestampHeader]
    when [logTime], then the column names in order, separated (from the
    timestamp column too) by a comma and a space: no separator leads or
    trails. *)
Theorem X3_header_string (s : Sys) :
  buildHeaderString s
  = ((if logTime (self s) then timestampHeader (self s) else "") +:+
     match header (self s) with
     | [] => ""
     | _ :: _ => if logTime (self s) then ", " else ""
     end +:+
     String.concat ", " (header (self s)),
     s).
Proof. apply buildHeaderString_run. Qed.

(** X4: a disabled logger ignores every row: no file, no member and no
    event changes, whatever mode and session it is in. *)
Theorem X4_disabled_logs_nothing (rows : list (QDateTime * QVariantList)) (s : Sys) :
  enabled (self s) = false → exec (logs os rows) s = s.
Proof.
  intros Hen. induction rows as [|[now data] rows IH]; [done |].
  by rewrite exec_logs_cons, log_disabled.
Qed.

(** X5: closing the session and logging on continues the same file: rows
    logged, [close], more rows logged leave one header line followed by all
    rows in order; the second open finds the file not empty and writes no
    second header. *)
Theorem X5_close_and_continue (rows1 rows2 : list (QDateTime * QVariantList))
    (s : Sys) :
  rows1 ≠ [] → rows2 ≠ [] →
  enabled (self s) = true → toConsole (self s) = false →
  fileNeedsReopen (self s) = true → buffer (writer (self s)) = "" →
  openable (world s) (target os (self s)) = true →
  isAbsolute os (target os (self s)) = true →
  content (world s) (target os (self s)) = "" →
  content
    (world (exec (logs os rows2) (exec close (exec (logs os rows1) s))))
    (target os (self s))
  = header_line (self s) +:+ nl +:+
    data_lines os (self s) rows1 +:+ data_lines os (self s) rows2.
Proof.
  intros Hrows1 Hrows2 Hen Hcon Hre Hbuf Hopen Habs Hempty.
  destruct (logs_reopen_facts rows1 s Hrows1 Hen Hcon Hre Hbuf Hopen)
    as (Hs1 & Hcfg & Hname & Hfn & _ & Hcontent & _ & Hden).
  set (s1 := exec (logs os rows1) s) in *.
  destruct Hs1 as (Hen1 & Hcon1 & _ & _ & _ & Hbuf1).
  rewrite close_run, (flush_idle s1 Hbuf1). cbv zeta.
  set (s2 := {| self := _; world := world s1; out := out s1 |}).
  assert (Hs2 : enabled (self s2) = true ∧ toConsole (self s2) = false ∧
                fileNeedsReopen (self s2) = true ∧ buffer (writer (self s2)) = "" ∧
                filename (self s2) = filename (self s1) ∧
                same_config (self s1) (self s2)).
  { subst s2. generalize dependent s1. intros s1. intros. open_sys s1.
    unfold same_config. subst. by step. }
  destruct Hs2 as (Hen2 & Hcon2 & Hre2 & Hbuf2 & Hfn2 & Hcfg2).
  assert (Htarget : target os (self s2) = target os (self s)).
  { unfold target at 1. by rewrite Hfn2, Hfn, Habs. }
  assert (Hopen2 : openable (world s2) (target os (self s2)) = true).
  { rewrite Htarget. unfold openable in *. cbn [world s2]. by rewrite Hden. }
  destruct (logs_reopen_facts rows2 s2 Hrows2 Hen2 Hcon2 Hre2 Hbuf2 Hopen2)
    as (_ & _ & _ & _ & _ & Hcontent2 & _).
  rewrite Htarget in Hcontent2. rewrite Hcontent2.
  change (world s2) with (world s1). rewrite Hcontent, Hempty.
  unfold heading. cbn [String.eqb]. rewrite append_nil_l.
  assert (Hfull : (header_line (self s) +:+ nl) +:+ data_lines os (self s) rows1 ≠ "").
  { by apply append_ne_nil_r, data_lines_nonempty. }
  rewrite (proj2 (String.eqb_neq _ _) Hfull), append_nil_l.
  assert (Hcfg12 : same_config (self s) (self s2))
    by (unfold same_config in *; intuition congruence).
  by rewrite (data_lines_config os _ _ rows2 Hcfg12), !append_assoc.
Qed.

Lemma call_leaves_closed (c : Call) (s : Sys) :
  consistent (self s) → session (self s) ≠ Closed →
  session (self (exec (call os c) s)) ≠ Closed.
Proof.
  intros Hc Hs. destruct c as [filename_|logTime_|header_|now data|]; cbn [call].
  - destruct (decide (filename (self s) = filename_)) as [<-|Hne].
    + by rewrite setFilename_same.
    + rewrite setFilename_new, (flush_consistent s Hc) by done. done.
  - destruct (decide (logTime (self s) = logTime_)) as [<-|Hne].
    + by rewrite setLogTime_same.
    + destruct (writing (self s)) eqn:Hw.
      * by rewrite setLogTime_writing.
      * rewrite setLogTime_idle by done. open_sys s. by step.
  - destruct (decide (header (self s) = header_)) as [<-|Hne].
    + by rewrite setHeader_same.
    + destruct (writing (self s)) eqn:Hw.
      * by rewrite setHeader_writing.
      * rewrite setHeader_idle by done. open_sys s. by step.
  - destruct (enabled (self s)) eqn:Hen; [| by rewrite log_disabled].
    destruct (toConsole (self s)) eqn:Hcon; [by rewrite log_console |].
    destruct (fileNeedsReopen (self s)) eqn:Hre.
    + destruct (openable (world s) (target os (self s))) eqn:Hopen.
      * destruct (log_reopen_ok_facts os now data s)
          as ((_ & _ & Hre' & Hop' & _) & _); try done; [apply Hc |].
        unfold session. by rewrite Hre', Hop'.
      * rewrite log_reopen_fail by done. unfold session. open_sys s. subst. by step.
    + destruct (isOpen (file (self s))) eqn:Hfile.
      * destruct Hc as (Hbuf & _ & _ & Hop). destruct (Hop Hfile) as (Hdev & _).
        rewrite log_open by done. unfold session. open_sys s. subst. by step.
      * exfalso. apply Hs. unfold session. by rewrite Hre, Hfile.
  - rewrite close_run, (flush_consistent s Hc). done.
Qed.

(** X6: the Closed session of a fresh logger is never entered again: once
    a file name was set or [close] was called, no sequence of calls brings
    the session back to Closed, so the "File is not open" report of [log]
    belongs to the time before the first [setFilename]. *)
Theorem X6_closed_only_at_start (cs : list Call) (s : Sys) :
  consistent (self s) → session (self s) ≠ Closed →
  session (self (exec (calls os cs) s)) ≠ Closed.
Proof.
  revert s; induction cs as [|c cs IH]; intros s Hc Hs; [done |].
  rewrite exec_calls_cons.
  by apply IH; [apply call_consistent | apply call_leaves_closed].
Qed.


Lemma setLogTime_idle_self (logTime_ : bool) (s : Sys) :
  writing (self s) = false →
  self (exec (setLogTime logTime_) s) = with_logTime logTime_ (self s) ∧
  world (exec (setLogTime logTime_) s) = world s.
Proof.
  intros Hw. open_sys s. subst. run.
  case_bool_decide as Hne; step; [done |].
  by subst.
Qed.

Lemma setHeader_idle_self (header_ : list string) (s : Sys) :
  writing (self s) = false →
  self (exec (setHeader header_) s) = with_header header_ (self s) ∧
  world (exec (setHeader header_) s) = world s.
Proof.
  intros Hw. open_sys s. subst. run.
  case_bool_decide as Hne; step; [done |].
  by subst.
Qed.

(** X8: settings made before the first row take effect in the file: with
    the session still waiting for its open, [setLogTime] and [setHeader]
    store their values, and the next [log] call writes the header line and
    the row of an empty file with them. *)
Theorem X8_settings_before_first_row (logTime_ : bool) (header_ : list string)
    (now : QDateTime) (data : QVariantList) (s : Sys) :
  consistent (self s) →
  enabled (self s) = true → toConsole (self s) = false →
  fileNeedsReopen (self s) = true →
  openable (world s) (target os (self s)) = true →
  content (world s) (target os (self s)) = "" →
  let s' := exec (log os now data)
              (exec (setHeader header_) (exec (setLogTime logTime_) s)) in
  let o := with_header header_ (with_logTime logTime_ (self s)) in
  logTime (self s') = logTime_ ∧ header (self s') = header_ ∧
  content (world s') (target os (self s))
  = header_line o +:+ nl +:+ data_line os o now data +:+ nl.
Proof.
  intros Hc Hen Hcon Hre Hopen Hempty. cbv zeta.
  destruct Hc as (Hbuf & Hw & _). specialize (Hw Hre).
  destruct (setLogTime_idle_self logTime_ s Hw) as (Hself1 & Hworld1).
  set (s1 := exec (setLogTime logTime_) s) in *.
  assert (Hw1 : writing (self s1) = false) by (rewrite Hself1; open_sys s; by step).
  destruct (setHeader_idle_self header_ s1 Hw1) as (Hself2 & Hworld2).
  set (s2 := exec (setHeader header_) s1) in *.
  rewrite Hself1 in Hself2. rewrite Hworld1 in Hworld2.
  assert (Htarget : target os (self s2) = target os (self s))
    by (rewrite Hself2; open_sys s; by step).
  destruct (log_reopen_ok_facts os now data s2)
    as (_ & (_ & Hh & Ht & _) & _ & _ & _ & Hcontent & _).
  1-5: rewrite ?Htarget, ?Hworld2, ?Hself2; try done; open_sys s; by step.
  rewrite Htarget, Hworld2, Hempty in Hcontent.
  unfold heading in Hcontent. cbn [String.eqb] in Hcontent.
  rewrite append_nil_l, append_assoc, Hself2 in Hcontent.
  rewrite Ht, Hh, Hself2. split; [by open_sys s |]. split; [by open_sys s |].
  done.
Qed.

(** X9: the stored name of a running session is the resolved path, so
    setting the relative name it was resolved from is a change of name: the
    file is closed and [filenameChanged] emitted; the next [log] call
    resolves the name to the same path again and appends its row there
    without a second header. *)
Theorem X9_relative_name_again (now now' : QDateTime) (data data' : QVariantList)
    (s : Sys) :
  consistent (self s) →
  enabled (self s) = true → toConsole (self s) = false →
  fileNeedsReopen (self s) = true →
  isAbsolute os (filename (self s)) = false →
  openable (world s) (target os (self s)) = true →
  let s1 := exec (log os now data) s in
  let s2 := exec (setFilename (filename (self s))) s1 in
  let s3 := exec (log os now' data') s2 in
  filename (self s1) = target os (self s) ∧
  session (self s2) = NeedsReopen ∧
  out s2 = out s1 ++ [Emit filenameChanged] ∧
  filename (self s3) = target os (self s) ∧
  content (world s3) (target os (self s))
  = content (world s1) (target os (self s)) +:+ data_line os (self s) now' data' +:+ nl.
Proof.
  intros Hc Hen Hcon Hre Habs Hopen. cbv zeta.
  pose proof (log_consistent os now data s Hc) as Hc1.
  destruct (log_reopen_ok_facts os now data s Hen Hcon Hre (proj1 Hc) Hopen)
    as (Hs1 & Hcfg & Hname & Hfn & _ & Hcontent & _ & Hden & _).
  set (s1 := exec (log os now data) s) in *.
  assert (Hne : filename (self s1) ≠ filename (self s)).
  { rewrite Hfn. unfold target. rewrite Habs, <- append_assoc.
    by apply append_length_ne, append_ne_nil_r. }
  rewrite (setFilename_new _ _ Hne), (flush_consistent s1 Hc1). cbv zeta.
  set (s2 := {| self := _; world := world s1; out := _ |}).
  destruct Hs1 as (Hen1 & Hcon1 & _).
  assert (Hs2 : enabled (self s2) = true ∧ toConsole (self s2) = false ∧
                fileNeedsReopen (self s2) = true ∧ buffer (writer (self s2)) = "" ∧
                filename (self s2) = filename (self s) ∧
                same_config (self s1) (self s2)).
  { destruct Hc1 as (Hbuf1 & _). subst s2. generalize dependent s1.
    intros s1. intros. open_sys s1. unfold same_config. subst. by step. }
  destruct Hs2 as (Hen2 & Hcon2 & Hre2 & Hbuf2 & Hfn2 & Hcfg2).
  assert (Htarget : target os (self s2) = target os (self s)).
  { unfold target. by rewrite Hfn2. }
  assert (Hopen2 : openable (world s2) (target os (self s2)) = true).
  { rewrite Htarget. unfold openable in *. cbn [world s2]. by rewrite Hden. }
  destruct (log_reopen_ok_facts os now' data' s2 Hen2 Hcon2 Hre2 Hbuf2 Hopen2)
    as (_ & _ & _ & Hfn3 & _ & Hcontent3 & _).
  rewrite Htarget in Hfn3, Hcontent3.
  split; [done |]. split; [done |]. split; [done |]. split; [done |].
  rewrite Hcontent3. change (world s2) with (world s1).
  assert (Hfull : content (world s1) (target os (self s)) ≠ "").
  { rewrite Hcontent, <- !append_assoc. by apply append_ne_nil_r. }
  unfold heading. rewrite (proj2 (String.eqb_neq _ _) Hfull), append_nil_l.
  assert (Hcfg12 : same_config (self s) (self s2))
    by (unfold same_config in *; intuition congruence).
  by rewrite (data_line_config os _ _ _ _ Hcfg12).
Qed.

(** X10: a failing open is retried by every later [log] call and changes
    the object only once: with an absolute file name that cannot be opened,
    each call reports the failure, and from the first failure on the object
    and the files stay as they are. *)
Theorem X10_failure_is_stable (now now' : QDateTime) (data data' : QVariantList)
    (s : Sys) :
  enabled (self s) = true → toConsole (self s) = false →
  fileNeedsReopen (self s) = true →
  isAbsolute os (filename (self s)) = true →
  openable (world s) (filename (self s)) = false →
  let s1 := exec (log os now data) s in
  let s2 := exec (log os now' data') s1 in
  self s2 = self s1 ∧ world s2 = world s ∧
  criticals (out s1) = criticals (out s) ++
    ["CSVLogger::log(): Could not open file: " +:+
     open_error (world s) (file (self s)) (filename (self s))] ∧
  criticals (out s2) = criticals (out s1) ++
    ["CSVLogger::log(): Could not open file: " +:+
     open_error (world s) (file (self s)) (filename (self s))].
Proof.
  intros Hen Hcon Hre Habs Hfail. cbv zeta.
  assert (Htarget : target os (self s) = filename (self s))
    by (unfold target; by rewrite Habs).
  assert (Hfail0 : openable (world s) (target os (self s)) = false)
    by (by rewrite Htarget).
  pose proof (log_reopen_fail os now data s Hen Hcon Hre Hfail0) as H1.
  rewrite Htarget in H1. unfold resolve_events in H1. rewrite Habs in H1.
  set (s1 := exec (log os now data) s) in *. clearbody s1.
  assert (Hs1 : enabled (self s1) = true ∧ toConsole (self s1) = false ∧
                fileNeedsReopen (self s1) = true ∧
                filename (self s1) = filename (self s) ∧ world s1 = world s ∧
                open_error (world s) (file (self s1)) (filename (self s))
                = open_error (world s) (file (self s)) (filename (self s))).
  { rewrite H1. unfold openable, open_error in *. open_sys s. subst. step.
    repeat split. destruct (String.eqb fn ""); [done |].
    by destruct (dn !! fn). }
  destruct Hs1 as (Hen1 & Hcon1 & Hre1 & Hfn1 & Hworld1 & Herr).
  assert (Htarget1 : target os (self s1) = filename (self s))
    by (unfold target; by rewrite Hfn1, Habs).
  assert (Hfail1 : openable (world s1) (target os (self s1)) = false)
    by (by rewrite Htarget1, Hworld1).
  pose proof (log_reopen_fail os now' data' s1 Hen1 Hcon1 Hre1 Hfail1) as H2.
  rewrite Htarget1, Hworld1, Herr in H2.
  unfold resolve_events in H2. rewrite Hfn1, Habs in H2.
  rewrite H2. cbn [self world out].
  split.
  { rewrite H1. unfold open_error. open_sys s. subst. step.
    destruct (String.eqb fn ""); [done |]. by destruct (dn !! fn). }
  split; [done |].
  unfold criticals. rewrite !omap_app. split; [| done].
  rewrite H1. cbn [out]. by rewrite !omap_app.
Qed.

(** X11: console mode over any number of rows: the console gets one line
    per row, in call order, and the object and the files stay as they were. *)
Theorem X11_console_rows (rows : list (QDateTime * QVariantList)) (s : Sys) :
  enabled (self s) = true → toConsole (self s) = true →
  let s' := exec (logs os rows) s in
  self s' = self s ∧ world s' = world s ∧
  debugs (out s') = debugs (out s) ++ map (λ r, data_line os (self s) r.1 r.2) rows.
Proof.
  revert s; induction rows as [|[now data] rows IH]; intros s Hen Hcon; cbv zeta.
  - change (exec (logs os []) s) with s. by rewrite app_nil_r.
  - rewrite exec_logs_cons, log_console by done.
    set (s1 := {| self := self s; world := world s; out := _ |}).
    destruct (IH s1 Hen Hcon) as (Hself & Hworld & Hout).
    rewrite Hself, Hworld, Hout. subst s1. cbn [self world out map fst snd].
    split; [done |]. split; [done |].
    unfold debugs, length_warning. rewrite !omap_app.
    destruct (length data =? length (header (self s)))%nat; cbn [omap list_omap];
      by rewrite <- !app_assoc.
Qed.


End More.

(** ** The further properties on sample inputs *)

Lemma X4_witness :
  exec (logs posix [(sample_now, sample_row); (sample_now, [])]) switched_off
  = switched_off.
Proof. apply (X4_disabled_logs_nothing posix). reflexivity. Defined.

Lemma X5_witness :
  content
    (world (exec (logs posix [(sample_now, [QVInt 2])])
              (exec close
                 (exec (logs posix [(sample_now, [QVInt 1])]) (named empty_world)))))
    "/home/user/Documents/log.csv"
  = "timestamp" +:+ nl +:+
    "2016-06-15 09:05:00.042, 1" +:+ nl +:+ "2016-06-15 09:05:00.042, 2" +:+ nl.
Proof.
  refine (eq_trans
    (X5_close_and_continue posix [(sample_now, [QVInt 1])]
       [(sample_now, [QVInt 2])] (named empty_world) _ _ _ _ _ _ _ _ _) _).
  - discriminate.
  - discriminate.
  - reflexivity.
  - reflexivity.
  - reflexivity.
  - reflexivity.
  - vm_compute. reflexivity.
  - vm_compute. reflexivity.
  - vm_compute. reflexivity.
  - vm_compute. reflexivity.
Defined.

Lemma X6_witness :
  session
    (self (exec (calls posix [CallLog sample_now sample_row; CallClose;
                              CallSetHeader ["a"]; CallLog sample_now []])
             (named empty_world)))
  ≠ Closed.
Proof.
  apply (X6_closed_only_at_start posix).
  - apply named_consistent.
  - vm_compute. discriminate.
Defined.


Lemma X8_witness :
  content
    (world (exec (log posix sample_now [QVInt 1; QVInt 2])
              (exec (setHeader ["a"; "b"])
                 (exec (setLogTime false) (named empty_world)))))
    "/home/user/Documents/log.csv"
  = "a, b" +:+ nl +:+ "1, 2" +:+ nl.
Proof.
  destruct (X8_settings_before_first_row posix false ["a"; "b"] sample_now
              [QVInt 1; QVInt 2] (named empty_world)) as (_ & _ & Hcontent).
  - apply named_consistent.
  - reflexivity.
  - reflexivity.
  - reflexivity.
  - vm_compute. reflexivity.
  - vm_compute. reflexivity.
  - change (target posix (self (named empty_world)))
      with "/home/user/Documents/log.csv" in Hcontent.
    rewrite Hcontent. vm_compute. reflexivity.
Defined.

Lemma X9_witness :
  session (self (exec (setFilename "log.csv") running)) = NeedsReopen ∧
  content
    (world (exec (log posix sample_now [QVInt 1])
              (exec (setFilename "log.csv") running)))
    "/home/user/Documents/log.csv"
  = content (world running) "/home/user/Documents/log.csv" +:+
    "2016-06-15 09:05:00.042, 1" +:+ nl.
Proof.
  destruct (X9_relative_name_again posix sample_now sample_now sample_row [QVInt 1]
              (named empty_world)) as (_ & Hsession & _ & _ & Hcontent).
  - apply named_consistent.
  - reflexivity.
  - reflexivity.
  - reflexivity.
  - reflexivity.
  - vm_compute. reflexivity.
  - split; [exact Hsession |].
    change (target posix (self (named empty_world)))
      with "/home/user/Documents/log.csv" in Hcontent.
    exact Hcontent.
Defined.

Lemma X10_witness :
  self (exec (log posix sample_now []) (exec (log posix sample_now sample_row) locked_out))
  = self (exec (log posix sample_now sample_row) locked_out) ∧
  criticals (out (exec (log posix sample_now sample_row) locked_out))
  = ["CSVLogger::log(): Could not open file: Permission denied"].
Proof.
  destruct (X10_failure_is_stable posix sample_now sample_now sample_row []
              locked_out) as (Hself & _ & Hcritical & _).
  - reflexivity.
  - reflexivity.
  - reflexivity.
  - reflexivity.
  - vm_compute. reflexivity.
  - split; [exact Hself |]. rewrite Hcritical. vm_compute. reflexivity.
Defined.

Lemma X11_witness :
  debugs (out (exec (logs posix [(sample_now, [QVInt 1; QVInt 2]);
                                 (sample_now, [QVString "x"])]) on_console))
  = ["2016-06-15 09:05:00, 1, 2"; "2016-06-15 09:05:00, x"].
Proof.
  destruct (X11_console_rows posix [(sample_now, [QVInt 1; QVInt 2]);
                                    (sample_now, [QVString "x"])] on_console)
    as (_ & _ & Hout).
  - reflexivity.
  - reflexivity.
  - rewrite Hout. vm_compute. reflexivity.
Defined.

